(** * The interactive result-set viewer of Query

    A shallow embedding of the result viewer
    ([src/components/results/ResultsTableEnhanced.tsx]) and of the export
    entry points of [src/hooks/useQueryExecution.ts], together with the
    properties its specification states about them.

    JavaScript strings are embedded as [string] (sequences of 8-bit code
    units, which covers ASCII text); numbers are kept abstract behind the
    [JsNumber] interface, since the viewer only ever renders and compares
    them. *)

From stdpp Require Import gmap strings list pretty.
From Stdlib Require Import Ascii String ZArith Lia.

Local Open Scope string_scope.

(** ** Host strings *)

Module Js.

Definition comma : ascii := ","%char.
Definition dquote : ascii := "034"%char.
Definition newline : ascii := "010"%char.

Definition str1 (c : ascii) : string := String c EmptyString.

(** [s.startsWith(p)] *)
Fixpoint startsWith (s p : string) {struct p} : bool :=
  match p, s with
  | EmptyString, _ => true
  | String _ _, EmptyString => false
  | String a p', String b s' => Ascii.eqb a b && startsWith s' p'
  end.

(** [s.includes(search)]: [search] occurs in [s] at some position. *)
Fixpoint includes (s search : string) : bool :=
  startsWith s search ||
  match s with
  | EmptyString => false
  | String _ s' => includes s' search
  end.

(** [s.replace] with the global pattern matching one double quote and the
    replacement made of two of them. *)
Fixpoint replace_dquotes (s : string) : string :=
  match s with
  | EmptyString => EmptyString
  | String c s' =>
      if Ascii.eqb c dquote
      then String dquote (String dquote (replace_dquotes s'))
      else String c (replace_dquotes s')
  end.

(** [s.toLowerCase()] on ASCII text: the letters A to Z are mapped to a to z,
    every other code unit is left alone. *)
Definition lower_ascii (c : ascii) : ascii :=
  let n := nat_of_ascii c in
  if (65 <=? n)%nat && (n <=? 90)%nat then ascii_of_nat (n + 32) else c.

Fixpoint toLowerCase (s : string) : string :=
  match s with
  | EmptyString => EmptyString
  | String c s' => String (lower_ascii c) (toLowerCase s')
  end.

(** [parts.join(sep)] for an array of strings. *)
Fixpoint join_strings (sep : string) (parts : list string) : string :=
  match parts with
  | [] => EmptyString
  | [p] => p
  | p :: rest => p ++ sep ++ join_strings sep rest
  end.

(** ** Host values *)

(** What the viewer needs from the host's numbers: their string rendition
    ([String(n)]) and their numeric order. *)
Class JsNumber (number : Type) := {
  number_to_string : number -> string;
  number_compare : number -> number -> comparison
}.

(** Integer-valued numbers, rendered in decimal. *)
#[export] Instance Z_JsNumber : JsNumber Z := {
  number_to_string := pretty;
  number_compare := Z.compare
}.

Section Values.
Context {number : Type} {num : JsNumber number}.

(** A cell value as it arrives from the backend: a JSON value, plus
    [undefined] for what a lookup of an absent property yields. *)
#[warnings="-register-all"]
Inductive JsValue : Type :=
| JNull
| JUndefined
| JBool (b : bool)
| JNumber (n : number)
| JString (s : string)
| JArray (elems : list JsValue)
| JObject (fields : list (string * JsValue)).

(** [typeof v === 'string'] *)
Definition is_string (v : JsValue) : bool :=
  match v with JString _ => true | _ => false end.

(** [String(v)].  An array renders as its elements joined by commas, where
    [null] and [undefined] elements render as the empty string; a plain
    object renders as [[object Object]]. *)
Fixpoint ToString (v : JsValue) : string :=
  match v with
  | JNull => "null"
  | JUndefined => "undefined"
  | JBool true => "true"
  | JBool false => "false"
  | JNumber n => number_to_string n
  | JString s => s
  | JArray elems =>
      join_strings ","
        (List.map (fun e => match e with
                            | JNull | JUndefined => EmptyString
                            | _ => ToString e
                            end) elems)
  | JObject _ => "[object Object]"
  end.

(** The conversion [Array.prototype.join] applies to each element. *)
Definition join_element (v : JsValue) : string :=
  match v with
  | JNull | JUndefined => EmptyString
  | _ => ToString v
  end.

(** [values.join(sep)] for an array of arbitrary values. *)
Definition Array_join (sep : string) (values : list JsValue) : string :=
  join_strings sep (List.map join_element values).

(** [arr[idx]]: reading past the end yields [undefined]. *)
Definition array_get (arr : list JsValue) (idx : nat) : JsValue :=
  default JUndefined (arr !! idx).

(** A plain object is the list of its own properties in insertion order,
    each key occurring once.  The host enumerates keys that look like array
    indices first, answers the names of [Object.prototype] with the inherited
    property and does not store [__proto__] as an own property; statements
    that depend on the keys carry these restrictions as hypotheses.
    [obj[key]]: reading an absent property yields [undefined]. *)
Fixpoint obj_get (obj : list (string * JsValue)) (key : string) : JsValue :=
  match obj with
  | [] => JUndefined
  | (k, v) :: rest => if String.eqb k key then v else obj_get rest key
  end.

(** [obj[key] = v]: an existing property keeps its place, a new one is
    added last. *)
Fixpoint obj_set (obj : list (string * JsValue)) (key : string) (v : JsValue)
  : list (string * JsValue) :=
  match obj with
  | [] => [(key, v)]
  | (k, w) :: rest =>
      if String.eqb k key then (k, v) :: rest else (k, w) :: obj_set rest key v
  end.

End Values.

Arguments JsValue number : clear implicits.

End Js.

Import Js.

(** ** The query result and its export (src/hooks/useQueryExecution.ts) *)

Section QueryExport.
Context {number : Type} {num : JsNumber number}.

(** [JSON.stringify(value, null, indent)], a service of the host. *)
Variable JSON_stringify : JsValue number -> nat -> string.

(** Modelled from the spec: the type [QueryResult], declared in the types
    module that is not under src/ (3 ResultSnapshot: the ordered column
    names, the rows aligned to them, the row count and the execution
    duration).  The source reads [columns], [rows] and
    [execution_time_ms]. *)
Record QueryResult : Type := {
  columns : list string;
  rows : list (list (JsValue number));
  row_count : nat;
  execution_time_ms : nat
}.

(** What an entry point does to the outside world. *)
Inductive Effect : Type :=
| Download (filename mime content : string)
| ClipboardWrite (text : string)
| ConsoleLog (message : string)
| ConsoleError (message : string).

(** The state cells of the [useQueryExecution] hook that matter here. *)
Record HookState : Type := {
  query : string;
  result : option QueryResult;
  loading : bool
}.

(** The callback of [row.map] in [exportToCSV]. *)
Definition export_csv_cell (cell : JsValue number) : string :=
  match cell with
  | JNull => EmptyString
  | _ =>
      let str := ToString cell in
      if includes str (str1 comma) || includes str (str1 dquote)
         || includes str (str1 newline)
      then str1 dquote ++ replace_dquotes str ++ str1 dquote
      else str
  end.

(** The text [csv] built by [exportToCSV]. *)
Definition export_csv_text (r : QueryResult) : string :=
  join_strings (str1 newline)
    (join_strings "," (columns r)
     :: List.map (fun row => join_strings "," (List.map export_csv_cell row))
          (rows r)).

(** [exportToCSV]; [today] is [new Date().toISOString().slice(0, 10)]. *)
Definition exportToCSV (today : string) (st : HookState)
  : HookState * list Effect :=
  match result st with
  | None => (st, [])
  | Some r =>
      (st, [Download ("query_results_" ++ today ++ ".csv")
              "text/csv;charset=utf-8;" (export_csv_text r)])
  end.

(** The object built for one row by [exportToJSON] (and by the viewer's
    [data] memo): [obj[col] = row[idx]] for each column in turn. *)
Definition row_object (cols : list string) (row : list (JsValue number))
  : list (string * JsValue number) :=
  fold_left (fun obj '(idx, col) => obj_set obj col (array_get row idx))
    (imap (fun idx col => (idx, col)) cols) [].

(** The array [data] built by [exportToJSON]. *)
Definition export_json_data (r : QueryResult) : list (list (string * JsValue number)) :=
  List.map (row_object (columns r)) (rows r).

(** [exportToJSON] *)
Definition exportToJSON (today : string) (st : HookState)
  : HookState * list Effect :=
  match result st with
  | None => (st, [])
  | Some r =>
      (st, [Download ("query_results_" ++ today ++ ".json")
              "application/json"
              (JSON_stringify (JArray (List.map JObject (export_json_data r))) 2)])
  end.

End QueryExport.

Arguments QueryResult number : clear implicits.
Arguments HookState number : clear implicits.

(** ** The viewer (src/components/results/ResultsTableEnhanced.tsx) *)

Section Viewer.
Context {number : Type} {num : JsNumber number}.
Variable JSON_stringify : JsValue number -> nat -> string.

(** *** State *)

(** An entry of [SortingState]. *)
Record ColumnSort : Type := { sort_id : string; sort_desc : bool }.

(** An entry of [ColumnFiltersState]. *)
Record ColumnFilter : Type := {
  filter_id : string;
  filter_value : JsValue number
}.

(** The five [useState] cells of the component.  [RowSelectionState] maps a
    row id to a boolean; row ids are the rows' positions in the snapshot. *)
Record ViewerState : Type := {
  sorting : list ColumnSort;
  columnFilters : list ColumnFilter;
  columnVisibility : gmap string bool;
  globalFilter : string;
  rowSelection : gmap nat bool
}.

(** What [useState] is given on mount. *)
Definition initial_state : ViewerState :=
  {| sorting := [];
     columnFilters := [];
     columnVisibility := ∅;
     globalFilter := EmptyString;
     rowSelection := ∅ |}.

(** The scroll container [tableContainerRef.current], in pixels. *)
Record Container : Type := { scrollTop : Z; clientHeight : Z }.

(** A mounted instance of the component: its props, its state cells and
    its ref. *)
Record Viewer : Type := {
  props_result : option (QueryResult number);
  props_compact : bool;
  state : ViewerState;
  tableContainerRef : option Container
}.

(** *** Rows *)

(** The memo [data]: one object per source row. *)
Definition data (result : option (QueryResult number))
  : list (list (string * JsValue number)) :=
  match result with
  | None => []
  | Some r => List.map (row_object (columns r)) (rows r)
  end.

(** A table row: its id (the position in [data]) and the object it shows. *)
Record Row : Type := {
  row_id : nat;
  original : list (string * JsValue number)
}.

(** [row.getValue(columnId)] for a column declared with [accessorKey]. *)
Definition Row_getValue (row : Row) (columnId : string) : JsValue number :=
  obj_get (original row) columnId.

(** The [filterFn] of every data column. *)
Definition filterFn (row : Row) (columnId : string)
    (filterValue : JsValue number) : bool :=
  match Row_getValue row columnId with
  | JNull | JUndefined => false
  | value =>
      let stringValue := toLowerCase (ToString value) in
      let stringFilter := toLowerCase (ToString filterValue) in
      includes stringValue stringFilter
  end.

(** Modelled from the spec: [getCoreRowModel] of the table library, which is
    not under src/ (4.1 Row Adapter: one row per source row, identity =
    source index). *)
Definition getCoreRowModel (d : list (list (string * JsValue number)))
  : list Row :=
  imap (fun i o => {| row_id := i; original := o |}) d.

(** Modelled from the spec: the filtering stage [getFilteredRowModel] of the
    table library, which is not under src/ (4.2).  A row must pass every
    column filter whose text is not empty, and the global filter when its
    text is not empty; the global filter passes a row that at least one
    column's predicate passes. *)
Definition passes_column_filters (filters : list ColumnFilter) (row : Row)
  : bool :=
  forallb (fun f =>
             String.eqb (ToString (filter_value f)) EmptyString
             || filterFn row (filter_id f) (filter_value f))
    filters.

Definition passes_global_filter (cols : list string) (text : string)
    (row : Row) : bool :=
  String.eqb text EmptyString
  || existsb (fun col => filterFn row col (JString text)) cols.

Definition getFilteredRowModel (cols : list string) (st : ViewerState)
    (core : list Row) : list Row :=
  List.filter (fun row => passes_column_filters (columnFilters st) row
                          && passes_global_filter cols (globalFilter st) row)
    core.

(** Modelled from the spec: the comparator of the sorting stage (4.2).
    Numbers compare numerically, strings lexicographically, booleans as 0/1,
    and null is lower than any non-null value.  The spec leaves the order
    between values of different kinds open; they are ordered by kind. *)
Definition kind_rank (v : JsValue number) : nat :=
  match v with
  | JNull | JUndefined => 0
  | JBool _ => 1
  | JNumber _ => 2
  | JString _ => 3
  | JArray _ | JObject _ => 4
  end.

Definition compare_values (a b : JsValue number) : comparison :=
  match a, b with
  | JBool x, JBool y => Nat.compare (Nat.b2n x) (Nat.b2n y)
  | JNumber x, JNumber y => number_compare x y
  | JString x, JString y => String.compare x y
  | _, _ => Nat.compare (kind_rank a) (kind_rank b)
  end.

(** The comparison of two rows under one sort entry. *)
Definition compare_rows (s : ColumnSort) (a b : Row) : comparison :=
  let c := compare_values (Row_getValue a (sort_id s))
                          (Row_getValue b (sort_id s)) in
  if sort_desc s then CompOpp c else c.

(** Modelled from the spec: the sorting stage [getSortedRowModel] of the
    table library, which is not under src/ (4.2).  A stable sort: a row is
    put in front of the first row of the already sorted rest that it does
    not compare greater than.  The spec has at most one active sort entry;
    it is the head of [sorting]. *)
Fixpoint sort_insert (cmp : Row -> Row -> comparison) (x : Row)
    (sorted : list Row) : list Row :=
  match sorted with
  | [] => [x]
  | y :: rest =>
      match cmp x y with
      | Gt => y :: sort_insert cmp x rest
      | _ => x :: y :: rest
      end
  end.

Fixpoint stable_sort (cmp : Row -> Row -> comparison) (l : list Row)
  : list Row :=
  match l with
  | [] => []
  | x :: rest => sort_insert cmp x (stable_sort cmp rest)
  end.

Definition getSortedRowModel (st : ViewerState) (filtered : list Row)
  : list Row :=
  match sorting st with
  | [] => filtered
  | s :: _ => stable_sort (compare_rows s) filtered
  end.

(** [table.getRowModel().rows]: the derived view. *)
Definition getRowModel (result : option (QueryResult number)) (st : ViewerState)
  : list Row :=
  match result with
  | None => []
  | Some r =>
      getSortedRowModel st
        (getFilteredRowModel (columns r) st (getCoreRowModel (data result)))
  end.

(** The rows of the derived view of a mounted viewer. *)
Definition view_rows (v : Viewer) : list Row :=
  getRowModel (props_result v) (state v).

(** The identities of the derived view, in view order. *)
Definition view_identities (v : Viewer) : list nat :=
  List.map row_id (view_rows v).

(** *** Virtualization *)

(** An item returned by the virtualizer: a view index and its pixel extent. *)
Record VirtualItem : Type := {
  item_index : nat;
  item_start : Z;
  item_size : Z;
  item_end : Z
}.

Definition virtual_item (rowHeightEstimatePx : Z) (i : nat) : VirtualItem :=
  {| item_index := i;
     item_start := Z.of_nat i * rowHeightEstimatePx;
     item_size := rowHeightEstimatePx;
     item_end := (Z.of_nat i + 1) * rowHeightEstimatePx |}.

(** Modelled from the spec: the window computation of the virtualizer
    library, which is not under src/ (4.3 [computeVisible]).  With a uniform
    row height, the first and last rows meeting the viewport are found by
    division, the range is widened by the overscan on each side and clamped
    to the rows that exist; no rows give no items. *)
Definition computeVisible (totalRows : nat)
    (viewportHeightPx scrollOffsetPx rowHeightEstimatePx : Z)
    (overscanCount : nat) : list VirtualItem :=
  match totalRows with
  | O => []
  | S lastRow =>
      let first := Z.to_nat (scrollOffsetPx / rowHeightEstimatePx) in
      let last :=
        Z.to_nat ((scrollOffsetPx + viewportHeightPx) / rowHeightEstimatePx) in
      let lo := Nat.min (first - overscanCount) lastRow in
      let hi := Nat.min (last + overscanCount) lastRow in
      List.map (virtual_item rowHeightEstimatePx) (seq lo (S hi - lo))
  end.

(** Modelled from the spec: [getTotalSize] of the virtualizer library (the
    total content height). *)
Definition getTotalSize (count : nat) (rowHeightEstimatePx : Z) : Z :=
  Z.of_nat count * rowHeightEstimatePx.

(** The options the component passes to [useVirtualizer]. *)
Definition estimateSize : Z := 33.
Definition overscan : nat := 10.

(** [rowVirtualizer.getVirtualItems()] over a mounted scroll container. *)
Definition getVirtualItems (count : nat) (c : Container) : list VirtualItem :=
  computeVisible count (clientHeight c) (scrollTop c) estimateSize overscan.

(** [paddingTop] and [paddingBottom] as the component computes them. *)
Definition paddingTop (virtualRows : list VirtualItem) : Z :=
  match virtualRows with
  | [] => 0
  | first :: _ => item_start first
  end.

Definition paddingBottom (virtualRows : list VirtualItem) (totalSize : Z) : Z :=
  match last virtualRows with
  | None => 0
  | Some final => totalSize - item_end final
  end.

(** The summed height of the rendered rows. *)
Definition rendered_height (virtualRows : list VirtualItem) : Z :=
  fold_right Z.add 0%Z (List.map item_size virtualRows).

(** The rows the table body renders: [rows[virtualRow.index]]. *)
Definition rendered_rows (rows : list Row) (virtualRows : list VirtualItem)
  : list Row :=
  omap (fun vi => rows !! item_index vi) virtualRows.

(** *** Selection *)

(** Modelled from the spec: [row.getIsSelected()] of the table library
    (4.4 [isSelected]). *)
Definition isSelected (sel : gmap nat bool) (id : nat) : bool :=
  match sel !! id with
  | Some true => true
  | _ => false
  end.

(** Modelled from the spec: [row.toggleSelected(value)] of the table library
    (4.4 [toggleRow]). *)
Definition toggleRow (id : nat) (value : bool) (sel : gmap nat bool)
  : gmap nat bool :=
  if value then <[id := true]> sel else delete id sel.

(** Modelled from the spec: [table.toggleAllRowsSelected(true)] of the table
    library (4.4 [selectAllVisible]): every identity of the derived view
    becomes selected. *)
Definition selectAllVisible (viewIdentities : list nat) (sel : gmap nat bool)
  : gmap nat bool :=
  fold_right (fun id acc => <[id := true]> acc) sel viewIdentities.

(** [table.toggleAllRowsSelected(false)]: the spec names no such operation;
    the identities of the derived view are taken out of the selection. *)
Definition deselectAllVisible (viewIdentities : list nat)
    (sel : gmap nat bool) : gmap nat bool :=
  fold_right (fun id acc => delete id acc) sel viewIdentities.

Inductive Aggregate : Type := AggNone | AggSome | AggAll.

(** Modelled from the spec: the aggregate state behind
    [table.getIsAllRowsSelected()] and [table.getIsSomeRowsSelected()]
    (4.4 [aggregateState]), relative to the derived view. *)
Definition aggregateState (viewIdentities : list nat) (sel : gmap nat bool)
  : Aggregate :=
  match viewIdentities with
  | [] => AggNone
  | _ =>
      if forallb (isSelected sel) viewIdentities then AggAll
      else if existsb (isSelected sel) viewIdentities then AggSome
      else AggNone
  end.

(** [Object.keys(rowSelection).filter(key => rowSelection[key]).length] *)
Definition selectedRowCount (sel : gmap nat bool) : nat :=
  List.length (List.filter (fun kv => snd kv) (map_to_list sel)).

Definition totalRowCount (rows : list Row) : nat := List.length rows.

Definition activeFilterCount (st : ViewerState) : nat :=
  List.length (columnFilters st)
  + (if String.eqb (globalFilter st) EmptyString then 0 else 1).

(** [getSelectedRowsData] *)
Definition getSelectedRowsData (rows : list Row) (sel : gmap nat bool)
  : list (list (string * JsValue number)) :=
  List.map original
    (List.filter (fun row => isSelected sel (row_id row)) rows).

(** *** Copy *)

(** The callback of [result.columns.map] in [copyAsCSV]: what it returns
    for the cell value [row[col]]. *)
Definition copy_csv_cell (value : JsValue number) : JsValue number :=
  match value with
  | JNull => JString EmptyString
  | JString s =>
      if includes s (str1 comma)
      then JString (str1 dquote ++ s ++ str1 dquote)
      else value
  | _ => value
  end.

(** The text [csv] built by [copyAsCSV] from the selected objects. *)
Definition copy_csv_text (cols : list string)
    (selectedData : list (list (string * JsValue number))) : string :=
  join_strings (str1 newline)
    (join_strings "," cols
     :: List.map (fun row =>
                    Array_join ","
                      (List.map (fun col => copy_csv_cell (obj_get row col)) cols))
          selectedData).

(** [copyToClipboard]; [clipboard_ok] tells whether the host accepts the
    write. *)
Definition copyToClipboard (clipboard_ok : bool) (count : nat)
    (text format : string) : list Effect :=
  if clipboard_ok
  then [ClipboardWrite text;
        ConsoleLog ("Copied " ++ pretty count ++ " rows as " ++ format)]
  else [ConsoleError "Failed to copy to clipboard:"].

Definition copyAsCSV (clipboard_ok : bool) (v : Viewer) : list Effect :=
  match props_result v with
  | None => []
  | Some r =>
      let selectedData :=
        getSelectedRowsData (view_rows v) (rowSelection (state v)) in
      copyToClipboard clipboard_ok (selectedRowCount (rowSelection (state v)))
        (copy_csv_text (columns r) selectedData) "CSV"
  end.

Definition copyAsJSON (clipboard_ok : bool) (v : Viewer) : list Effect :=
  let selectedData :=
    getSelectedRowsData (view_rows v) (rowSelection (state v)) in
  copyToClipboard clipboard_ok (selectedRowCount (rowSelection (state v)))
    (JSON_stringify (JArray (List.map JObject selectedData)) 2) "JSON".

(** *** Handlers and the render cycle *)

Record KeyboardEvent : Type := {
  metaKey : bool;
  ctrlKey : bool;
  key : string
}.

Definition with_state (st : ViewerState) (v : Viewer) : Viewer :=
  {| props_result := props_result v;
     props_compact := props_compact v;
     state := st;
     tableContainerRef := tableContainerRef v |}.

Definition setSorting (s : list ColumnSort) (v : Viewer) : Viewer :=
  with_state
    {| sorting := s;
       columnFilters := columnFilters (state v);
       columnVisibility := columnVisibility (state v);
       globalFilter := globalFilter (state v);
       rowSelection := rowSelection (state v) |} v.

Definition setColumnFilters (f : list ColumnFilter) (v : Viewer) : Viewer :=
  with_state
    {| sorting := sorting (state v);
       columnFilters := f;
       columnVisibility := columnVisibility (state v);
       globalFilter := globalFilter (state v);
       rowSelection := rowSelection (state v) |} v.

Definition setColumnVisibility (vis : gmap string bool) (v : Viewer)
  : Viewer :=
  with_state
    {| sorting := sorting (state v);
       columnFilters := columnFilters (state v);
       columnVisibility := vis;
       globalFilter := globalFilter (state v);
       rowSelection := rowSelection (state v) |} v.

Definition setGlobalFilter (text : string) (v : Viewer) : Viewer :=
  with_state
    {| sorting := sorting (state v);
       columnFilters := columnFilters (state v);
       columnVisibility := columnVisibility (state v);
       globalFilter := text;
       rowSelection := rowSelection (state v) |} v.

Definition setRowSelection (sel : gmap nat bool) (v : Viewer) : Viewer :=
  with_state
    {| sorting := sorting (state v);
       columnFilters := columnFilters (state v);
       columnVisibility := columnVisibility (state v);
       globalFilter := globalFilter (state v);
       rowSelection := sel |} v.

(** [table.toggleAllRowsSelected(value)], resolved against the derived view
    of the viewer. *)
Definition toggleAllRowsSelected (value : bool) (v : Viewer) : Viewer :=
  let sel := rowSelection (state v) in
  setRowSelection
    (if value then selectAllVisible (view_identities v) sel
     else deselectAllVisible (view_identities v) sel) v.

(** Modelled from the spec: [column.setFilterValue(text)] of the table
    library (4.2 [setFilter]); an empty text removes the column's entry. *)
Fixpoint put_filter (col : string) (value : JsValue number)
    (filters : list ColumnFilter) : list ColumnFilter :=
  match filters with
  | [] => [{| filter_id := col; filter_value := value |}]
  | f :: rest =>
      if String.eqb (filter_id f) col
      then {| filter_id := col; filter_value := value |} :: rest
      else f :: put_filter col value rest
  end.

Definition setFilterValue (col text : string) (filters : list ColumnFilter)
  : list ColumnFilter :=
  if String.eqb text EmptyString
  then List.filter (fun f => negb (String.eqb (filter_id f) col)) filters
  else put_filter col (JString text) filters.

(** Modelled from the spec: the sort toggle of the table library
    (4.2 [setSort(column, direction | none)]); [Some true] is descending. *)
Definition setSort (col : string) (direction : option bool)
  : list ColumnSort :=
  match direction with
  | None => []
  | Some d => [{| sort_id := col; sort_desc := d |}]
  end.

(** The keyboard handler.  [focusInTable] is
    [tableContainerRef.current.contains(document.activeElement)]. *)
Definition handleKeyDown (e : KeyboardEvent) (focusInTable : bool)
    (v : Viewer) : Viewer :=
  let currentSelectedCount := selectedRowCount (rowSelection (state v)) in
  let v1 :=
    if (metaKey e || ctrlKey e) && String.eqb (key e) "a"
       && bool_decide (is_Some (tableContainerRef v))
    then (if focusInTable then toggleAllRowsSelected true v else v)
    else v in
  if String.eqb (key e) "Escape" && (0 <? currentSelectedCount)%nat
  then setRowSelection ∅ v1
  else v1.

(** Whether the component renders the table (and so mounts the scroll
    container): a result is present and has rows. *)
Definition has_rows (result : option (QueryResult number)) : bool :=
  match result with
  | Some r => match rows r with [] => false | _ => true end
  | None => false
  end.

(** A freshly mounted instance; [height] is the height the container is
    laid out with. *)
Definition mount (result : option (QueryResult number)) (compact : bool) (height : Z)
  : Viewer :=
  {| props_result := result;
     props_compact := compact;
     state := initial_state;
     tableContainerRef :=
       if has_rows result
       then Some {| scrollTop := 0; clientHeight := height |}
       else None |}.

(** What can happen to a mounted instance. *)
Inductive Event : Type :=
| KeyDown (e : KeyboardEvent) (focusInTable : bool)
| HeaderCheckboxChange (value : bool)
| RowCheckboxChange (id : nat) (value : bool)
| SelectAllClick
| ClearSelectionClick
| ClearFiltersClick
| GlobalFilterChange (text : string)
| GlobalFilterClearClick
| ColumnFilterChange (col text : string)
| SortChange (col : string) (direction : option bool)
| ColumnVisibilityChange (col : string) (value : bool)
| ScrollTo (offset : Z)
| ResultChange (result : option (QueryResult number)) (height : Z).

(** The state update an event performs.  The parent renders the component
    without a key, so a new [result] prop reaches the same instance: its
    state cells are kept. *)
Definition update (ev : Event) (v : Viewer) : Viewer :=
  match ev with
  | KeyDown e focusInTable => handleKeyDown e focusInTable v
  | HeaderCheckboxChange value => toggleAllRowsSelected value v
  | RowCheckboxChange id value =>
      setRowSelection (toggleRow id value (rowSelection (state v))) v
  | SelectAllClick => toggleAllRowsSelected true v
  | ClearSelectionClick => setRowSelection ∅ v
  | ClearFiltersClick => setColumnFilters [] (setGlobalFilter EmptyString v)
  | GlobalFilterChange text => setGlobalFilter text v
  | GlobalFilterClearClick => setGlobalFilter EmptyString v
  | ColumnFilterChange col text =>
      setColumnFilters (setFilterValue col text (columnFilters (state v))) v
  | SortChange col direction => setSorting (setSort col direction) v
  | ColumnVisibilityChange col value =>
      setColumnVisibility (<[col := value]> (columnVisibility (state v))) v
  | ScrollTo offset =>
      {| props_result := props_result v;
         props_compact := props_compact v;
         state := state v;
         tableContainerRef :=
           (fun c => {| scrollTop := offset; clientHeight := clientHeight c |})
             <$> tableContainerRef v |}
  | ResultChange result height =>
      {| props_result := result;
         props_compact := props_compact v;
         state := state v;
         tableContainerRef :=
           if has_rows result
           then Some (default {| scrollTop := 0; clientHeight := height |}
                        (tableContainerRef v))
           else None |}
  end.

(** Whether the dependencies [columnFilters, sorting, globalFilter] of the
    scroll effect differ after the event.  The array-valued cells are
    compared by reference and every setter stores a fresh array; the global
    filter text is compared by value. *)
Definition deps_changed (ev : Event) (v : Viewer) : bool :=
  match ev with
  | ClearFiltersClick | ColumnFilterChange _ _ | SortChange _ _ => true
  | GlobalFilterChange text =>
      negb (String.eqb text (globalFilter (state v)))
  | GlobalFilterClearClick =>
      negb (String.eqb EmptyString (globalFilter (state v)))
  | _ => false
  end.

(** The effect that scrolls to the top. *)
Definition scroll_effect (v : Viewer) : Viewer :=
  {| props_result := props_result v;
     props_compact := props_compact v;
     state := state v;
     tableContainerRef :=
       (fun c => {| scrollTop := 0; clientHeight := clientHeight c |})
         <$> tableContainerRef v |}.

(** One render cycle: the state update, then the effects whose dependencies
    changed. *)
Definition handle (ev : Event) (v : Viewer) : Viewer :=
  let v' := update ev v in
  if deps_changed ev v then scroll_effect v' else v'.

End Viewer.

Arguments ColumnFilter number : clear implicits.
Arguments ViewerState number : clear implicits.
Arguments Viewer number : clear implicits.
Arguments Row number : clear implicits.
Arguments Event number : clear implicits.

(** ** The rules in the words of the specification *)

Section Rules.
Context {number : Type} {num : JsNumber number}.
Variable JSON_stringify : JsValue number -> nat -> string.

(** A rendition contains the character [c]. *)
Fixpoint contains_char (c : ascii) (s : string) : bool :=
  match s with
  | EmptyString => false
  | String d s' => Ascii.eqb d c || contains_char c s'
  end.

(** Every embedded double quote doubled. *)
Fixpoint double_dquotes (s : string) : string :=
  match s with
  | EmptyString => EmptyString
  | String c s' =>
      (if Ascii.eqb c dquote then str1 dquote ++ str1 dquote else str1 c)
      ++ double_dquotes s'
  end.

(** The CSV rule for one cell (4.5): empty if null; otherwise the string
    rendition, wrapped in double quotes with every embedded double quote
    doubled when it contains a comma, a double quote or a newline. *)
Definition csv_field_rule (cell : JsValue number) : string :=
  match cell with
  | JNull => EmptyString
  | _ =>
      let rendition := ToString cell in
      if contains_char comma rendition || contains_char dquote rendition
         || contains_char newline rendition
      then str1 dquote ++ double_dquotes rendition ++ str1 dquote
      else rendition
  end.

(** The CSV rule for a document (4.5): the header row is the column names
    joined by commas, rows are joined by newline. *)
Definition csv_document_rule (cols : list string)
    (cells : list (list (JsValue number))) : string :=
  join_strings (str1 newline)
    (join_strings (str1 comma) cols
     :: List.map (fun row => join_strings (str1 comma)
                               (List.map csv_field_rule row)) cells).

(** The cells of the derived view, row by row in view order and column by
    column in column order. *)
Definition derived_view_cells (r : QueryResult number) (st : ViewerState number)
  : list (list (JsValue number)) :=
  List.map (fun row => List.map (Row_getValue row) (columns r))
    (getRowModel (Some r) st).

(** The export entry points serialize the given rows: [exportToCSV]
    downloads the CSV document of [cells], [exportToJSON] downloads the JSON
    text of [objects], and neither changes the hook state. *)
Definition exports_rows (today : string) (st : HookState number)
    (cols : list string) (cells : list (list (JsValue number)))
    (objects : list (list (string * JsValue number))) : Prop :=
  exportToCSV today st
  = (st, [Download ("query_results_" ++ today ++ ".csv")
            "text/csv;charset=utf-8;" (csv_document_rule cols cells)])
  /\ exportToJSON JSON_stringify today st
     = (st, [Download ("query_results_" ++ today ++ ".json")
               "application/json"
               (JSON_stringify (JArray (List.map JObject objects)) 2)]).

(** The filter and sort state: the per-column filters, the global filter
    text and the sort entries. *)
Definition filter_sort_state (st : ViewerState number)
  : list (ColumnFilter number) * string * list ColumnSort :=
  (columnFilters st, globalFilter st, sorting st).

(** [a] comes before [b] in the sequence [l]. *)
Definition precedes {A : Type} (a b : A) (l : list A) : Prop :=
  exists l1 l2 l3, l = (l1 ++ a :: l2 ++ b :: l3)%list.

(** The select-all gestures: Cmd/Ctrl+A while the grid is mounted and has
    the focus, checking the header checkbox, and the Select All button. *)
Definition is_select_all (ev : Event number) (v : Viewer number) : bool :=
  match ev with
  | KeyDown e focusInTable =>
      (metaKey e || ctrlKey e) && String.eqb (key e) "a"
      && bool_decide (is_Some (tableContainerRef v)) && focusInTable
  | HeaderCheckboxChange true => true
  | SelectAllClick => true
  | _ => false
  end.

End Rules.

(** ** Sample data *)

Definition he_said_hi : string :=
  "He said " ++ str1 dquote ++ "hi" ++ str1 dquote.

Definition quote_result : QueryResult Z :=
  {| columns := ["quote"];
     rows := [[JString he_said_hi]];
     row_count := 1;
     execution_time_ms := 1 |}.

(** The three rows [(1,b), (2,a), (3,a)] over the columns [id] and [name]. *)
Definition people : QueryResult Z :=
  {| columns := ["id"; "name"];
     rows := [[JNumber 1%Z; JString "b"];
              [JNumber 2%Z; JString "a"];
              [JNumber 3%Z; JString "a"]];
     row_count := 3;
     execution_time_ms := 1 |}.

Definition name_is_a : ViewerState Z :=
  {| sorting := [];
     columnFilters := [{| filter_id := "name"; filter_value := JString "a" |}];
     columnVisibility := ∅;
     globalFilter := EmptyString;
     rowSelection := ∅ |}.

Definition by_name_ascending : ViewerState Z :=
  {| sorting := [{| sort_id := "name"; sort_desc := false |}];
     columnFilters := [];
     columnVisibility := ∅;
     globalFilter := EmptyString;
     rowSelection := ∅ |}.

Definition no_json : JsValue Z -> nat -> string := fun _ _ => EmptyString.

Definition row_1b : Row Z :=
  {| row_id := 0; original := [("id", JNumber 1%Z); ("name", JString "b")] |}.
Definition row_2a : Row Z :=
  {| row_id := 1; original := [("id", JNumber 2%Z); ("name", JString "a")] |}.
Definition row_3a : Row Z :=
  {| row_id := 2; original := [("id", JNumber 3%Z); ("name", JString "a")] |}.

(** The viewer over [people] with the filter [name = a] typed in. *)
Definition filtered_people : Viewer Z :=
  with_state name_is_a (mount (Some people) false 330).

(** The viewer over [people] with the first row (id = 1) selected. *)
Definition first_selected : Viewer Z :=
  setRowSelection {[0%nat := true]} (mount (Some people) false 330).

(** The viewer over [people], scrolled down by twenty rows. *)
Definition scrolled_people : Viewer Z :=
  handle (ScrollTo 660) (mount (Some people) false 330).

Definition cmd_a : KeyboardEvent :=
  {| metaKey := true; ctrlKey := false; key := "a" |}.

Definition name_ascending : ColumnSort :=
  {| sort_id := "name"; sort_desc := false |}.

Definition people_hook : HookState Z :=
  {| query := "SELECT * FROM people"; result := Some people;
     loading := false |}.

(** ** Running queries (src/hooks/useQueryExecution.ts, src/constants) *)

(** [s.trim()] and [s.toUpperCase()] on ASCII text.  White space is the
    tab, the line feed, the vertical tab, the form feed, the carriage return
    and the space. *)
Definition is_whitespace (c : ascii) : bool :=
  let n := nat_of_ascii c in
  ((9 <=? n)%nat && (n <=? 13)%nat) || (n =? 32)%nat.

Fixpoint trimStart (s : string) : string :=
  match s with
  | EmptyString => EmptyString
  | String c s' => if is_whitespace c then trimStart s' else s
  end.

Fixpoint trimEnd (s : string) : string :=
  match s with
  | EmptyString => EmptyString
  | String c s' =>
      let rest := trimEnd s' in
      if is_whitespace c && String.eqb rest EmptyString
      then EmptyString
      else String c rest
  end.

Definition trim (s : string) : string := trimEnd (trimStart s).

Definition upper_ascii (c : ascii) : ascii :=
  let n := nat_of_ascii c in
  if (97 <=? n)%nat && (n <=? 122)%nat then ascii_of_nat (n - 32) else c.

Fixpoint toUpperCase (s : string) : string :=
  match s with
  | EmptyString => EmptyString
  | String c s' => String (upper_ascii c) (toUpperCase s')
  end.

(** A text made of white space only. *)
Fixpoint all_whitespace (s : string) : bool :=
  match s with
  | EmptyString => true
  | String c s' => is_whitespace c && all_whitespace s'
  end.

(** The constants the hook imports. *)
Definition READ_ONLY_COMMANDS : list string :=
  ["SELECT"; "DESCRIBE"; "DESC"; "SHOW"; "EXPLAIN"].

Definition READ_ONLY_MODE : string :=
  "Cannot execute this query in read-only mode. Only SELECT, DESCRIBE, DESC, SHOW, and EXPLAIN are allowed.".

Definition QUERY_LIMIT : nat := 100.

(** The read-only test of [runQuery]: [isAllowed]. *)
Definition isAllowed (query : string) : bool :=
  let trimmedQuery := toUpperCase (trim query) in
  existsb (fun cmd => startsWith trimmedQuery cmd) READ_ONLY_COMMANDS.

Section RunQuery.
Context {number : Type} {num : JsNumber number}.

(** The connection settings, passed through to the backend untouched. *)
Variable ConnectionConfig : Type.

(** [executeQuery] of the backend bridge: it resolves with a result or
    rejects with an error, whose text is what the template literal shows. *)
Variable executeQuery :
  ConnectionConfig -> string -> QueryResult number + string.

(** What [runQuery] calls, in order. *)
Inductive HookCall : Type :=
| ExecuteQuery (config : ConnectionConfig) (query : string)
| OnSuccess (result : QueryResult number).

(** The value [runQuery] resolves with. *)
Record RunStatus : Type := { success : bool; status : string }.

(** [runQuery].  [connected] is [connectedRef.current]; [onSuccess] tells
    whether the optional callback was passed.  The state returned is the
    one after the promise has settled, so [loading] is back to [false]
    whenever the backend was called. *)
Definition runQuery (config : ConnectionConfig) (connected readOnlyMode : bool)
    (onSuccess : bool) (st : HookState number)
  : HookState number * RunStatus * list HookCall :=
  if negb connected then
    (st, {| success := false;
            status := "Please connect to a database first" |}, [])
  else if String.eqb (trim (query st)) EmptyString then
    (st, {| success := false; status := "Please enter a query" |}, [])
  else if readOnlyMode && negb (isAllowed (query st)) then
    (st, {| success := false; status := READ_ONLY_MODE |}, [])
  else
    match executeQuery config (query st) with
    | inl queryResult =>
        ({| query := query st; result := Some queryResult; loading := false |},
         {| success := true; status := "Query executed successfully" |},
         ExecuteQuery config (query st)
         :: (if onSuccess then [OnSuccess queryResult] else []))
    | inr error =>
        ({| query := query st; result := result st; loading := false |},
         {| success := false; status := "Error executing query: " ++ error |},
         [ExecuteQuery config (query st)])
    end.

(** [setQuery] *)
Definition setQuery (q : string) (st : HookState number) : HookState number :=
  {| query := q; result := result st; loading := loading st |}.

(** What the table helpers ask of the editor. *)
Inductive EditorCall : Type :=
| InsertSnippet (snippet : string)
| InsertAtCursor (text : string).

Definition handleTableClick (tableName : string) (st : HookState number)
  : HookState number :=
  setQuery ("SELECT * FROM " ++ tableName ++ " LIMIT " ++ pretty QUERY_LIMIT
            ++ ";") st.

(** The three template helpers; [insertSnippet] tells whether the editor has
    registered its snippet callback. *)
Definition handleTableInsert (insertSnippet : bool) (tableName : string)
    (st : HookState number) : HookState number * list EditorCall :=
  if insertSnippet
  then (st, [InsertSnippet
               ("INSERT INTO " ++ tableName
                ++ " (${1:column1}, ${2:column2}) VALUES (${3:value1}, ${4:value2});")])
  else (setQuery ("INSERT INTO " ++ tableName
                  ++ " (column1, column2) VALUES (value1, value2);") st, []).

Definition handleTableUpdate (insertSnippet : bool) (tableName : string)
    (st : HookState number) : HookState number * list EditorCall :=
  if insertSnippet
  then (st, [InsertSnippet
               ("UPDATE " ++ tableName
                ++ " SET ${1:column1} = ${2:value1} WHERE ${3:condition};")])
  else (setQuery ("UPDATE " ++ tableName
                  ++ " SET column1 = value1 WHERE condition;") st, []).

Definition handleTableDelete (insertSnippet : bool) (tableName : string)
    (st : HookState number) : HookState number * list EditorCall :=
  if insertSnippet
  then (st, [InsertSnippet
               ("DELETE FROM " ++ tableName ++ " WHERE ${1:condition};")])
  else (setQuery ("DELETE FROM " ++ tableName ++ " WHERE condition;") st, []).

Definition handleColumnClick (insertAtCursor : bool)
    (tableName columnName : string) (st : HookState number)
  : HookState number * list EditorCall :=
  if insertAtCursor
  then (st, [InsertAtCursor (tableName ++ "." ++ columnName)])
  else (st, []).

(** What a CSV field stands for: nothing for null, the string rendition
    otherwise. *)
Definition field_rendition (cell : JsValue number) : string :=
  match cell with
  | JNull => EmptyString
  | _ => ToString cell
  end.

End RunQuery.

Arguments HookCall number ConnectionConfig : clear implicits.
Arguments ExecuteQuery {number ConnectionConfig} config query.
Arguments OnSuccess {number ConnectionConfig} result.

(** ** Filter events and the selected rows *)

Section FilterEvents.
Context {number : Type} {num : JsNumber number}.

(** The events that set or clear a filter: typing in a column's filter
    input, typing in the global search input, its clear button, and the
    Clear filters button. *)
Definition is_filter_event (ev : Event number) : bool :=
  match ev with
  | ColumnFilterChange _ _ | GlobalFilterChange _
  | GlobalFilterClearClick | ClearFiltersClick => true
  | _ => false
  end.

(** [clear] takes back the filter that [applied] set: the Clear filters
    button after any filter event, emptying the input of the same column
    after a column filter, emptying the global search input (by typing or by
    its clear button) after a global filter. *)
Definition clears_filter (clear applied : Event number) : bool :=
  match clear, applied with
  | ClearFiltersClick, _ => is_filter_event applied
  | ColumnFilterChange col EmptyString, ColumnFilterChange col' _ =>
      String.eqb col col'
  | GlobalFilterClearClick, GlobalFilterChange _ => true
  | GlobalFilterChange EmptyString, GlobalFilterChange _ => true
  | _, _ => false
  end.

(** The rows of a view that are selected, in view order: the rows whose
    objects [getSelectedRowsData] returns. *)
Definition selected_rows (rows : list (Row number)) (sel : gmap nat bool)
  : list (Row number) :=
  List.filter (fun row => isSelected sel (row_id row)) rows.

End FilterEvents.

(** ** Keys of plain objects *)

(** The property names a plain object inherits from [Object.prototype].
    [obj_get] and [obj_set] describe the own properties of an object only;
    for these names the host answers with the inherited property, and an
    assignment to [__proto__] does not create an own property. *)
Definition prototype_keys : list string :=
  ["__proto__"; "constructor"; "hasOwnProperty"; "isPrototypeOf";
   "propertyIsEnumerable"; "toLocaleString"; "toString"; "valueOf";
   "__defineGetter__"; "__defineSetter__"; "__lookupGetter__";
   "__lookupSetter__"].

(** A key that starts with a digit may be an array index, which the host
    enumerates before the other keys. *)
Definition starts_with_digit (s : string) : bool :=
  match s with
  | EmptyString => false
  | String c _ =>
      let n := nat_of_ascii c in (48 <=? n)%nat && (n <=? 57)%nat
  end.

(** A text made of ASCII code units only. *)
Fixpoint is_ascii_text (s : string) : bool :=
  match s with
  | EmptyString => true
  | String c s' => (nat_of_ascii c <? 128)%nat && is_ascii_text s'
  end.

(** The conditions under which the selection bar and, inside it, the Select
    All button are rendered. *)
Definition selection_bar_shown (sel : gmap nat bool) : bool :=
  (0 <? selectedRowCount sel)%nat.

Definition select_all_offered {number : Type} (rows : list (Row number))
    (sel : gmap nat bool) : bool :=
  selection_bar_shown sel
  && (selectedRowCount sel <? totalRowCount rows)%nat.

Definition escape_key : KeyboardEvent :=
  {| metaKey := false; ctrlKey := false; key := "Escape" |}.

Definition letter_x_key : KeyboardEvent :=
  {| metaKey := true; ctrlKey := false; key := "x" |}.

(** A backend that knows one table. *)
Definition sample_backend (config : unit) (query : string)
  : QueryResult Z + string :=
  if includes query "people" then inl people
  else inr "relation does not exist".

(** * Properties *)

(** ** Strings *)

Lemma startsWith_spec (s p : string) :
  startsWith s p = true <-> exists post, s = p ++ post.
Proof.
  revert s. induction p as [|a p IH]; intros s; simpl.
  - split; [intros _; exists s; reflexivity | reflexivity].
  - destruct s as [|b s]; simpl.
    + split; [discriminate | intros [post Hpost]; discriminate].
    + rewrite andb_true_iff, Ascii.eqb_eq, IH. split.
      * intros [-> [post ->]]. exists post. reflexivity.
      * intros [post Hpost]. injection Hpost as -> ->. eauto.
Qed.

Lemma includes_spec (s search : string) :
  includes s search = true <-> exists pre post, s = pre ++ search ++ post.
Proof.
  induction s as [|a s IH]; simpl.
  - rewrite orb_false_r, startsWith_spec. split.
    + intros [post Hpost]. exists EmptyString, post. exact Hpost.
    + intros [pre [post Hs]]. destruct pre; [eauto | discriminate].
  - rewrite orb_true_iff, startsWith_spec, IH. split.
    + intros [[post Hpost] | [pre [post Hs]]].
      * exists EmptyString, post. exact Hpost.
      * exists (String a pre), post. rewrite Hs. reflexivity.
    + intros [[|b pre] [post Hs]]; simpl in Hs.
      * left. eauto.
      * right. injection Hs as -> ->. eauto.
Qed.

Lemma includes_char (c : ascii) (s : string) :
  includes s (str1 c) = contains_char c s.
Proof.
  induction s as [|d s IH]; [reflexivity|].
  simpl. rewrite <- IH. rewrite (Ascii.eqb_sym c d).
  destruct (Ascii.eqb d c); [destruct s|]; reflexivity.
Qed.

Lemma replace_dquotes_doubles (s : string) :
  replace_dquotes s = double_dquotes s.
Proof.
  induction s as [|c s IH]; [reflexivity|].
  simpl. rewrite IH. destruct (Ascii.eqb c dquote); reflexivity.
Qed.

(** ** Export *)

Section ExportProperties.
Context {number : Type} {num : JsNumber number}.
Variable JSON_stringify : JsValue number -> nat -> string.

(** The cell callback of [exportToCSV] is the CSV rule of the spec. *)
Lemma export_csv_cell_rule (cell : JsValue number) :
  export_csv_cell cell = csv_field_rule cell.
Proof.
  unfold export_csv_cell, csv_field_rule.
  rewrite !includes_char, replace_dquotes_doubles. reflexivity.
Qed.

(** The text built by [exportToCSV] is the CSV document of all the rows of
    the snapshot, in snapshot order. *)
Lemma export_csv_text_rule (r : QueryResult number) :
  export_csv_text r = csv_document_rule (columns r) (rows r).
Proof.
  unfold export_csv_text, csv_document_rule. f_equal. f_equal.
  apply List.map_ext. intros row. f_equal.
  apply List.map_ext. intros cell. apply export_csv_cell_rule.
Qed.

(** C10: without a result, [exportToCSV] and [exportToJSON] do nothing: they
    produce no download (no effect at all) and leave the hook state as it
    is; both are total functions, so nothing is thrown. *)
Theorem export_without_result_is_noop (today : string)
    (st : HookState number) :
  result st = None ->
  exportToCSV today st = (st, [])
  /\ exportToJSON JSON_stringify today st = (st, []).
Proof.
  intros Hnone. unfold exportToCSV, exportToJSON. rewrite Hnone. split; reflexivity.
Qed.

End ExportProperties.

Lemma export_without_result_is_noop_witness :
  result {| query := "SELECT 1"; result := @None (QueryResult Z);
            loading := false |} = None
  /\ exportToCSV "2026-11-02"
       {| query := "SELECT 1"; result := @None (QueryResult Z);
          loading := false |}
     = ({| query := "SELECT 1"; result := None; loading := false |}, [])
  /\ exportToJSON no_json "2026-11-02"
       {| query := "SELECT 1"; result := @None (QueryResult Z);
          loading := false |}
     = ({| query := "SELECT 1"; result := None; loading := false |}, []).
Proof.
  split; [reflexivity|].
  apply (export_without_result_is_noop no_json "2026-11-02"
           {| query := "SELECT 1"; result := None; loading := false |}).
  reflexivity.
Defined.

Section ExportScope.
Context {number : Type} {num : JsNumber number}.
Variable JSON_stringify : JsValue number -> nat -> string.

(** C2, as the code has it: for every snapshot and every filter, sort and
    selection state of the viewer, [exportToCSV] and [exportToJSON]
    serialize exactly the rows of the snapshot, in snapshot order; the
    viewer's state is not consulted. *)
Theorem export_serializes_snapshot (today : string) (st : HookState number)
    (r : QueryResult number) (viewer_state : ViewerState number) :
  result st = Some r ->
  exports_rows JSON_stringify today st (columns r) (rows r)
    (List.map (row_object (columns r)) (rows r)).
Proof.
  intros Hr. unfold exports_rows, exportToCSV, exportToJSON. rewrite Hr.
  rewrite export_csv_text_rule. split; reflexivity.
Qed.

End ExportScope.

Lemma export_serializes_snapshot_witness :
  result people_hook = Some people
  /\ exports_rows no_json "2026-11-02" people_hook (columns people)
       (rows people) (List.map (row_object (columns people)) (rows people)).
Proof.
  split; [reflexivity|].
  apply (export_serializes_snapshot no_json "2026-11-02" people_hook people
           name_is_a).
  reflexivity.
Defined.

(** C2, as stated, fails: with the filter [name = a] active the derived view
    has two rows, and the export still serializes all three rows of the
    snapshot. *)
Lemma export_ignores_filter_counterexample :
  result people_hook = Some people
  /\ List.length (getRowModel (Some people) name_is_a) = 2%nat
  /\ ~ exports_rows no_json "2026-11-02" people_hook (columns people)
         (derived_view_cells people name_is_a)
         (List.map original (getRowModel (Some people) name_is_a)).
Proof.
  split; [reflexivity|]. split; [reflexivity|].
  intros [Hcsv _]. vm_compute in Hcsv. discriminate Hcsv.
Qed.

(** ** Copy *)

(** C1 at the failing input: a selected cell holding the text
    [He said] followed by [hi] in double quotes.  The rule (and the export
    path) wraps the field in double quotes and doubles the embedded ones;
    [copyAsCSV] writes the text as it is. *)
Theorem copyAsCSV_leaves_quotes_unescaped :
  copy_csv_text ["quote"] [[("quote", JString he_said_hi : JsValue Z)]]
  = "quote" ++ str1 newline ++ he_said_hi
  /\ copyAsCSV true
       (setRowSelection {[0%nat := true]} (mount (Some quote_result) false 330))
     = [ClipboardWrite ("quote" ++ str1 newline ++ he_said_hi);
        ConsoleLog "Copied 1 rows as CSV"]
  /\ csv_document_rule ["quote"] [[JString he_said_hi : JsValue Z]]
     = "quote" ++ str1 newline
       ++ str1 dquote ++ "He said " ++ str1 dquote ++ str1 dquote ++ "hi"
       ++ str1 dquote ++ str1 dquote ++ str1 dquote
  /\ export_csv_text quote_result
     = csv_document_rule ["quote"] [[JString he_said_hi : JsValue Z]].
Proof. repeat split; vm_compute; reflexivity. Qed.

(** ** Filtering *)

Section FilterProperties.
Context {number : Type} {num : JsNumber number}.

(** C5: the column filter predicate excludes a row exactly when the row's
    value for the column is null or undefined, or the lowercase rendition of
    the value does not contain the lowercase filter text. *)
Theorem filterFn_excludes_iff (row : Row number) (columnId text : string) :
  filterFn row columnId (JString text) = false <->
  (Row_getValue row columnId = JNull
   \/ Row_getValue row columnId = JUndefined
   \/ ~ exists pre post,
          toLowerCase (ToString (Row_getValue row columnId))
          = pre ++ toLowerCase text ++ post).
Proof.
  unfold filterFn.
  assert (Hinc : forall s t, includes s t = false <->
                             ~ exists pre post, s = pre ++ t ++ post).
  { intros s t. rewrite <- includes_spec. destruct (includes s t); split;
      intros; try discriminate; try reflexivity; congruence. }
  destruct (Row_getValue row columnId) eqn:Hv; cbn [ToString].
  - split; auto.
  - split; auto.
  - rewrite Hinc. split; [auto | intros [?|[?|?]]; [discriminate..|assumption]].
  - rewrite Hinc. split; [auto | intros [?|[?|?]]; [discriminate..|assumption]].
  - rewrite Hinc. split; [auto | intros [?|[?|?]]; [discriminate..|assumption]].
  - rewrite Hinc. split; [auto | intros [?|[?|?]]; [discriminate..|assumption]].
  - rewrite Hinc. split; [auto | intros [?|[?|?]]; [discriminate..|assumption]].
Qed.

End FilterProperties.

(** ** Sorting *)

Section Precedence.
Context {A : Type}.

Lemma precedes_cons (x a b : A) (l : list A) :
  precedes a b l -> precedes a b (x :: l).
Proof.
  intros (l1 & l2 & l3 & ->). exists (x :: l1), l2, l3. reflexivity.
Qed.

Lemma precedes_head (a b : A) (l : list A) :
  In b l -> precedes a b (a :: l).
Proof.
  intros Hb. apply List.in_split in Hb as (l2 & l3 & ->).
  exists [], l2, l3. reflexivity.
Qed.

Lemma precedes_inv (x a b : A) (l : list A) :
  precedes a b (x :: l) -> (a = x /\ In b l) \/ precedes a b l.
Proof.
  intros ([|y l1] & l2 & l3 & Heq); simpl in Heq; injection Heq as -> ->.
  - left. split; [reflexivity|]. apply List.in_or_app. right. left. reflexivity.
  - right. exists l1, l2, l3. reflexivity.
Qed.

End Precedence.

Section SortProperties.
Context {number : Type} {num : JsNumber number}.
Variable cmp : Row number -> Row number -> comparison.

Lemma sort_insert_In (x b : Row number) (l : list (Row number)) :
  In b (sort_insert cmp x l) <-> b = x \/ In b l.
Proof.
  induction l as [|y l IH]; simpl.
  - intuition congruence.
  - destruct (cmp x y); simpl; try rewrite IH; intuition congruence.
Qed.

Lemma stable_sort_In (b : Row number) (l : list (Row number)) :
  In b (stable_sort cmp l) <-> In b l.
Proof.
  induction l as [|x l IH]; simpl; [reflexivity|].
  rewrite sort_insert_In, IH. intuition congruence.
Qed.

Lemma sort_insert_length (x : Row number) (l : list (Row number)) :
  List.length (sort_insert cmp x l) = S (List.length l).
Proof.
  induction l as [|y l IH]; simpl; [reflexivity|].
  destruct (cmp x y); simpl; congruence.
Qed.

Lemma stable_sort_length (l : list (Row number)) :
  List.length (stable_sort cmp l) = List.length l.
Proof.
  induction l as [|x l IH]; simpl; [reflexivity|].
  rewrite sort_insert_length. congruence.
Qed.

Lemma sort_insert_Permutation (x : Row number) (l : list (Row number)) :
  sort_insert cmp x l ≡ₚ x :: l.
Proof.
  induction l as [|y l IH]; simpl; [reflexivity|].
  destruct (cmp x y); try reflexivity.
  rewrite IH. apply Permutation_swap.
Qed.

Lemma stable_sort_Permutation (l : list (Row number)) :
  stable_sort cmp l ≡ₚ l.
Proof.
  induction l as [|x l IH]; simpl; [reflexivity|].
  rewrite sort_insert_Permutation, IH. reflexivity.
Qed.

(** Inserting a row keeps the order of the rows already there. *)
Lemma sort_insert_keeps_order (x a b : Row number) (l : list (Row number)) :
  precedes a b l -> precedes a b (sort_insert cmp x l).
Proof.
  induction l as [|y l IH]; simpl; intros Hab.
  - destruct Hab as ([|? ?] & ? & ? & ?); discriminate.
  - destruct (cmp x y); try (apply precedes_cons; exact Hab).
    apply precedes_inv in Hab as [[-> Hb] | Hab].
    + apply precedes_head. apply sort_insert_In. right. exact Hb.
    + apply precedes_cons. apply IH. exact Hab.
Qed.

(** The inserted row lands in front of every row it is not greater than. *)
Lemma sort_insert_in_front (x b : Row number) (l : list (Row number)) :
  In b l -> cmp x b <> Gt -> precedes x b (sort_insert cmp x l).
Proof.
  induction l as [|y l IH]; simpl; intros Hb Hle; [contradiction|].
  destruct (cmp x y) eqn:Hxy; try (apply precedes_head; exact Hb).
  destruct Hb as [-> | Hb]; [contradiction|].
  apply precedes_cons. apply IH; assumption.
Qed.

Lemma stable_sort_stable (a b : Row number) (l : list (Row number)) :
  precedes a b l -> cmp a b <> Gt -> precedes a b (stable_sort cmp l).
Proof.
  induction l as [|x l IH]; simpl; intros Hab Hle.
  - destruct Hab as ([|? ?] & ? & ? & ?); discriminate.
  - apply precedes_inv in Hab as [[-> Hb] | Hab].
    + apply sort_insert_in_front; [|exact Hle].
      apply stable_sort_In. exact Hb.
    + apply sort_insert_keeps_order. apply IH; assumption.
Qed.

End SortProperties.

Section SortedModel.
Context {number : Type} {num : JsNumber number}.

Lemma getSortedRowModel_Permutation (st : ViewerState number)
    (filtered : list (Row number)) :
  getSortedRowModel st filtered ≡ₚ filtered.
Proof.
  unfold getSortedRowModel. destruct (sorting st); [reflexivity|].
  apply stable_sort_Permutation.
Qed.

Lemma getSortedRowModel_In (st : ViewerState number)
    (filtered : list (Row number)) (row : Row number) :
  In row (getSortedRowModel st filtered) <-> In row filtered.
Proof.
  unfold getSortedRowModel. destruct (sorting st); [reflexivity|].
  apply stable_sort_In.
Qed.

Lemma getSortedRowModel_stable (st : ViewerState number) (s : ColumnSort)
    (filtered : list (Row number)) (a b : Row number) :
  head (sorting st) = Some s ->
  precedes a b filtered ->
  compare_rows s a b = Eq ->
  precedes a b (getSortedRowModel st filtered).
Proof.
  unfold getSortedRowModel. destruct (sorting st) as [|s' rest]; simpl.
  - discriminate.
  - intros [= ->] Hab Heq. apply stable_sort_stable; [exact Hab|].
    rewrite Heq. discriminate.
Qed.

End SortedModel.

(** The derived view never has more rows than the snapshot, and sorting
    neither drops nor adds rows. *)
Lemma getFilteredRowModel_length {number : Type} {num : JsNumber number}
    (cols : list string) (st : ViewerState number) (core : list (Row number)) :
  (List.length (getFilteredRowModel cols st core) <= List.length core)%nat.
Proof. unfold getFilteredRowModel. apply List.filter_length_le. Qed.

Lemma getSortedRowModel_length {number : Type} {num : JsNumber number}
    (st : ViewerState number) (filtered : list (Row number)) :
  List.length (getSortedRowModel st filtered) = List.length filtered.
Proof.
  unfold getSortedRowModel. destruct (sorting st); [reflexivity|].
  apply stable_sort_length.
Qed.

(** The column filter [name = a] over the three sample rows keeps the two
    rows named [a]; without it all three rows are back. *)
Example filter_name_a :
  getRowModel (Some people) name_is_a = [row_2a; row_3a]
  /\ getRowModel (Some people) initial_state = [row_1b; row_2a; row_3a].
Proof. split; reflexivity. Qed.

(** C6: sorting is stable.  Under the active sort entry, two rows of the
    filtered sequence whose keys compare equal come out in the order they
    went in, and no row is lost or added; sorting the rows
    [(1,b), (2,a), (3,a)] ascending by [name] yields
    [(2,a), (3,a), (1,b)]. *)
Theorem sorting_is_stable :
  (forall (number : Type) (num : JsNumber number) (st : ViewerState number)
          (s : ColumnSort) (filtered : list (Row number)) (a b : Row number),
      head (sorting st) = Some s ->
      precedes a b filtered ->
      compare_rows s a b = Eq ->
      precedes a b (getSortedRowModel st filtered)
      /\ getSortedRowModel st filtered ≡ₚ filtered)
  /\ List.map (fun row => (Row_getValue row "id", Row_getValue row "name"))
       (getRowModel (Some people) by_name_ascending)
     = [(JNumber 2%Z, JString "a"); (JNumber 3%Z, JString "a");
        (JNumber 1%Z, JString "b")].
Proof.
  split; [|reflexivity].
  intros number num st s filtered a b Hs Hab Heq. split.
  - eapply getSortedRowModel_stable; eassumption.
  - apply getSortedRowModel_Permutation.
Qed.

Lemma sorting_is_stable_witness :
  head (sorting by_name_ascending) = Some name_ascending
  /\ precedes row_2a row_3a (getCoreRowModel (data (Some people)))
  /\ compare_rows name_ascending row_2a row_3a = Eq
  /\ precedes row_2a row_3a
       (getSortedRowModel by_name_ascending
          (getCoreRowModel (data (Some people))))
  /\ getSortedRowModel by_name_ascending (getCoreRowModel (data (Some people)))
     ≡ₚ getCoreRowModel (data (Some people)).
Proof.
  assert (H1 : head (sorting by_name_ascending) = Some name_ascending)
    by reflexivity.
  assert (H2 : precedes row_2a row_3a (getCoreRowModel (data (Some people))))
    by (exists [row_1b], [], []; reflexivity).
  assert (H3 : compare_rows name_ascending row_2a row_3a = Eq)
    by reflexivity.
  split; [exact H1|]. split; [exact H2|]. split; [exact H3|].
  exact (proj1 sorting_is_stable Z Z_JsNumber by_name_ascending name_ascending
           (getCoreRowModel (data (Some people))) row_2a row_3a H1 H2 H3).
Defined.

(** ** Virtualization *)

Lemma rendered_height_uniform (h : Z) (lo len : nat) :
  rendered_height (List.map (virtual_item h) (seq lo len)) = (Z.of_nat len * h)%Z.
Proof.
  unfold rendered_height. revert lo.
  induction len as [|len IH]; intros lo; simpl seq; simpl List.map;
    simpl fold_right.
  - lia.
  - rewrite IH. simpl item_size. lia.
Qed.

Lemma last_virtual_item (h : Z) (lo len : nat) :
  last (List.map (virtual_item h) (seq lo (S len)))
  = Some (virtual_item h (lo + len)).
Proof.
  revert lo. induction len as [|len IH]; intros lo.
  - simpl. rewrite Nat.add_0_r. reflexivity.
  - change (seq lo (S (S len))) with (lo :: seq (S lo) (S len)).
    rewrite List.map_cons.
    change (seq (S lo) (S len)) with (S lo :: seq (S (S lo)) len) at 1.
    rewrite List.map_cons.
    change (last (virtual_item h lo :: virtual_item h (S lo)
                    :: List.map (virtual_item h) (seq (S (S lo)) len)))
      with (last (virtual_item h (S lo)
                    :: List.map (virtual_item h) (seq (S (S lo)) len))).
    rewrite <- List.map_cons.
    change (S lo :: seq (S (S lo)) len) with (seq (S lo) (S len)).
    rewrite IH. f_equal. f_equal. lia.
Qed.

Lemma computeVisible_total_height (n : nat) (viewport scroll h : Z)
    (overscanCount : nat) :
  (0 < h)%Z -> (0 <= viewport)%Z ->
  (paddingTop (computeVisible n viewport scroll h overscanCount)
   + rendered_height (computeVisible n viewport scroll h overscanCount)
   + paddingBottom (computeVisible n viewport scroll h overscanCount)
       (getTotalSize n h))%Z
  = (Z.of_nat n * h)%Z.
Proof.
  intros Hh Hviewport. destruct n as [|lastRow]; [reflexivity|].
  unfold computeVisible, getTotalSize.
  set (first := Z.to_nat (scroll / h)).
  set (final := Z.to_nat ((scroll + viewport) / h)).
  assert (Hle : (first <= final)%nat).
  { pose proof (Z.div_le_mono scroll (scroll + viewport) h Hh) as Hdiv.
    subst first final. lia. }
  set (lo := Nat.min (first - overscanCount) lastRow).
  set (hi := Nat.min (final + overscanCount) lastRow).
  assert (Hlo : (lo <= hi)%nat) by (subst lo hi; lia).
  assert (Hhi : (hi <= lastRow)%nat) by (subst hi; lia).
  replace (S hi - lo)%nat with (S (hi - lo)) by lia.
  rewrite rendered_height_uniform.
  unfold paddingBottom. rewrite last_virtual_item.
  simpl paddingTop. simpl item_end.
  replace (lo + (hi - lo))%nat with hi by lia.
  clearbody lo hi. clear first final Hle.
  replace (Z.of_nat (S (hi - lo))) with (Z.of_nat hi - Z.of_nat lo + 1)%Z
    by lia.
  ring.
Qed.

(** What the component's own guards give for an empty window: no spacer at
    all.  The window of [computeVisible] is empty only when there are no
    rows. *)
Lemma empty_window_has_no_spacers (totalSize : Z) :
  (paddingTop [] + rendered_height [] + paddingBottom [] totalSize)%Z = 0%Z.
Proof. reflexivity. Qed.

Lemma computeVisible_nil (n : nat) (viewport scroll h : Z)
    (overscanCount : nat) :
  (0 < h)%Z -> (0 <= viewport)%Z ->
  computeVisible n viewport scroll h overscanCount = [] -> n = 0%nat.
Proof.
  intros Hh Hviewport Hnil.
  pose proof (computeVisible_total_height n viewport scroll h overscanCount
                Hh Hviewport) as Htotal.
  rewrite Hnil, empty_window_has_no_spacers in Htotal. nia.
Qed.

(** The same for the virtualizer as the component configures it (row height
    33, overscan 10), over any mounted container. *)
Lemma viewer_spacers_total (count : nat) (c : Container) :
  (0 <= clientHeight c)%Z ->
  (paddingTop (getVirtualItems count c)
   + rendered_height (getVirtualItems count c)
   + paddingBottom (getVirtualItems count c) (getTotalSize count estimateSize))%Z
  = (Z.of_nat count * 33)%Z.
Proof.
  intros Hc. unfold getVirtualItems.
  apply computeVisible_total_height; [reflexivity | exact Hc].
Qed.

(** C8: with a uniform row height [h], the leading spacer, the heights of
    the returned rows and the trailing spacer add up to [n * h]; for 1000
    rows of 33 pixels, a viewport of 330 pixels and an overscan of 10 the
    sum is 1000 * 33 at every scroll offset. *)
Theorem spacers_preserve_total_height :
  (forall (n : nat) (viewport scroll h : Z) (overscanCount : nat),
      (0 < h)%Z -> (0 <= viewport)%Z ->
      (paddingTop (computeVisible n viewport scroll h overscanCount)
       + rendered_height (computeVisible n viewport scroll h overscanCount)
       + paddingBottom (computeVisible n viewport scroll h overscanCount)
           (getTotalSize n h))%Z
      = (Z.of_nat n * h)%Z)
  /\ (forall scroll : Z,
         (paddingTop (computeVisible 1000 330 scroll 33 10)
          + rendered_height (computeVisible 1000 330 scroll 33 10)
          + paddingBottom (computeVisible 1000 330 scroll 33 10)
              (getTotalSize 1000 33))%Z
         = (1000 * 33)%Z).
Proof.
  split.
  - apply computeVisible_total_height.
  - intros scroll.
    rewrite (computeVisible_total_height 1000 330 scroll 33 10); lia.
Qed.

Lemma spacers_preserve_total_height_witness :
  (0 < 33)%Z /\ (0 <= 330)%Z
  /\ (paddingTop (computeVisible 1000 330 1650 33 10)
      + rendered_height (computeVisible 1000 330 1650 33 10)
      + paddingBottom (computeVisible 1000 330 1650 33 10)
          (getTotalSize 1000 33))%Z
     = (Z.of_nat 1000 * 33)%Z.
Proof.
  assert (H1 : (0 < 33)%Z) by lia.
  assert (H2 : (0 <= 330)%Z) by lia.
  split; [exact H1|]. split; [exact H2|].
  exact (proj1 spacers_preserve_total_height 1000%nat 330%Z 1650%Z 33%Z 10%nat
           H1 H2).
Defined.

(** ** Selection *)

Lemma isSelected_selectAllVisible (ids : list nat) (sel : gmap nat bool)
    (id : nat) :
  isSelected (selectAllVisible ids sel) id = true
  <-> In id ids \/ isSelected sel id = true.
Proof.
  induction ids as [|a ids IH]; simpl.
  - intuition.
  - unfold isSelected at 1. rewrite lookup_insert.
    destruct (decide (a = id)) as [->|Hne].
    + intuition.
    + fold (isSelected (selectAllVisible ids sel) id). rewrite IH.
      intuition congruence.
Qed.

Lemma isSelected_counts (sel : gmap nat bool) (id : nat) :
  isSelected sel id = true -> (1 <= selectedRowCount sel)%nat.
Proof.
  unfold isSelected, selectedRowCount. intros Hsel.
  destruct (sel !! id) as [[|]|] eqn:Hid; try discriminate.
  apply elem_of_map_to_list in Hid. apply list_elem_of_In in Hid.
  assert (Hin : In (id, true)
                  (List.filter (fun kv : nat * bool => snd kv) (map_to_list sel))).
  { apply List.filter_In. split; [exact Hid | reflexivity]. }
  destruct (List.filter _ _); [contradiction | simpl; lia].
Qed.

Section SelectionProperties.
Context {number : Type} {num : JsNumber number}.

Lemma view_rows_setRowSelection (sel : gmap nat bool) (v : Viewer number) :
  view_rows (setRowSelection sel v) = view_rows v.
Proof. reflexivity. Qed.

Lemma select_all_handle (ev : Event number) (v : Viewer number) :
  is_select_all ev v = true -> handle ev v = toggleAllRowsSelected true v.
Proof.
  destruct ev as [e focus| [|] | | | | | | | | | | |]; simpl;
    try discriminate; try reflexivity.
  rewrite !andb_true_iff. intros [[[Hmod Hkey] Hmounted] Hfocus].
  unfold handle, deps_changed, update, handleKeyDown.
  rewrite Hmod, Hkey, Hmounted, Hfocus. simpl.
  apply String.eqb_eq in Hkey. rewrite Hkey. reflexivity.
Qed.

Lemma select_all_scope (ev : Event number) (v : Viewer number) :
  is_select_all ev v = true ->
  (forall id,
      isSelected (rowSelection (state (handle ev v))) id = true
      <-> In id (view_identities v)
          \/ isSelected (rowSelection (state v)) id = true)
  /\ view_identities (handle ev v) = view_identities v
  /\ (view_identities v <> [] ->
      aggregateState (view_identities (handle ev v))
        (rowSelection (state (handle ev v))) = AggAll).
Proof.
  intros Hev. rewrite (select_all_handle ev v Hev).
  assert (Hsel : forall id,
            isSelected (rowSelection (state (toggleAllRowsSelected true v))) id
            = true
            <-> In id (view_identities v)
                \/ isSelected (rowSelection (state v)) id = true).
  { intros id. apply isSelected_selectAllVisible. }
  split; [exact Hsel|]. split; [reflexivity|].
  intros Hne.
  change (view_identities (toggleAllRowsSelected true v))
    with (view_identities v).
  unfold aggregateState.
  destruct (view_identities v) as [|i ids] eqn:Hids; [contradiction|].
  rewrite <- Hids in *.
  replace (forallb _ (view_identities v)) with true; [reflexivity|].
  symmetry. apply List.forallb_forall. intros id Hid. apply Hsel. left. exact Hid.
Qed.

End SelectionProperties.

(** C4: a select-all gesture (Cmd/Ctrl+A with the grid focused, the header
    checkbox, or the Select All button) selects the identities of the
    derived view and no other: after it an identity is selected exactly when
    it is in the derived view or was selected before, the view itself is
    unchanged, and the aggregate state relative to a non-empty view is
    [all].  With the filter [name = a] showing 2 of the 3 rows, Cmd+A selects
    exactly the identities 1 and 2; the aggregate state is [all] and row
    id = 1 (identity 0) stays unselected. *)
Theorem select_all_selects_the_derived_view :
  (forall (number : Type) (num : JsNumber number) (ev : Event number)
          (v : Viewer number),
      is_select_all ev v = true ->
      (forall id,
          isSelected (rowSelection (state (handle ev v))) id = true
          <-> In id (view_identities v)
              \/ isSelected (rowSelection (state v)) id = true)
      /\ view_identities (handle ev v) = view_identities v
      /\ (view_identities v <> [] ->
          aggregateState (view_identities (handle ev v))
            (rowSelection (state (handle ev v))) = AggAll))
  /\ (view_identities filtered_people = [1%nat; 2%nat]
      /\ rowSelection (state (handle (KeyDown cmd_a true) filtered_people))
         = {[1%nat := true; 2%nat := true]}
      /\ selectedRowCount
           (rowSelection (state (handle (KeyDown cmd_a true) filtered_people)))
         = 2%nat
      /\ isSelected
           (rowSelection (state (handle (KeyDown cmd_a true) filtered_people)))
           0 = false
      /\ aggregateState
           (view_identities (handle (KeyDown cmd_a true) filtered_people))
           (rowSelection (state (handle (KeyDown cmd_a true) filtered_people)))
         = AggAll).
Proof.
  split.
  - intros number num ev v. apply select_all_scope.
  - repeat split; reflexivity.
Qed.

Lemma select_all_selects_the_derived_view_witness :
  is_select_all (KeyDown cmd_a true) filtered_people = true
  /\ (forall id,
         isSelected
           (rowSelection (state (handle (KeyDown cmd_a true) filtered_people)))
           id = true
         <-> In id (view_identities filtered_people)
             \/ isSelected (rowSelection (state filtered_people)) id = true)
  /\ view_identities (handle (KeyDown cmd_a true) filtered_people)
     = view_identities filtered_people
  /\ (view_identities filtered_people <> [] ->
      aggregateState
        (view_identities (handle (KeyDown cmd_a true) filtered_people))
        (rowSelection (state (handle (KeyDown cmd_a true) filtered_people)))
      = AggAll).
Proof.
  assert (H : is_select_all (KeyDown cmd_a true) filtered_people = true)
    by reflexivity.
  split; [exact H|].
  exact (proj1 select_all_selects_the_derived_view Z Z_JsNumber
           (KeyDown cmd_a true) filtered_people H).
Defined.

Section HiddenSelection.
Context {number : Type} {num : JsNumber number}.

Lemma getRowModel_core (result : option (QueryResult number))
    (st : ViewerState number) (row : Row number) :
  In row (getRowModel result st) -> In row (getCoreRowModel (data result)).
Proof.
  unfold getRowModel. destruct result as [r|]; [|contradiction].
  rewrite getSortedRowModel_In. unfold getFilteredRowModel.
  rewrite List.filter_In. tauto.
Qed.

Lemma getRowModel_unfiltered (result : option (QueryResult number))
    (st : ViewerState number) (row : Row number) :
  columnFilters st = [] -> globalFilter st = EmptyString ->
  In row (getCoreRowModel (data result)) -> In row (getRowModel result st).
Proof.
  intros Hcol Hglobal Hrow. unfold getRowModel.
  destruct result as [r|]; [|exact Hrow].
  rewrite getSortedRowModel_In. unfold getFilteredRowModel.
  rewrite List.filter_In. split; [exact Hrow|].
  rewrite Hcol, Hglobal. reflexivity.
Qed.

Lemma rendered_rows_In (rows : list (Row number))
    (virtualRows : list VirtualItem) (row : Row number) :
  In row (rendered_rows rows virtualRows) -> In row rows.
Proof.
  unfold rendered_rows. rewrite <- !list_elem_of_In, list_elem_of_omap.
  intros (vi & _ & Hvi). eapply list_elem_of_lookup_2. exact Hvi.
Qed.

Lemma getRowModel_In (r : QueryResult number) (st : ViewerState number)
    (row : Row number) :
  In row (getRowModel (Some r) st)
  <-> In row (getCoreRowModel (data (Some r)))
      /\ passes_column_filters (columnFilters st) row = true
      /\ passes_global_filter (columns r) (globalFilter st) row = true.
Proof.
  unfold getRowModel. rewrite getSortedRowModel_In.
  unfold getFilteredRowModel. rewrite List.filter_In, andb_true_iff.
  reflexivity.
Qed.

Lemma passes_column_filters_incl (filters fewer : list (ColumnFilter number))
    (row : Row number) :
  (forall f, In f fewer -> In f filters) ->
  passes_column_filters filters row = true ->
  passes_column_filters fewer row = true.
Proof.
  unfold passes_column_filters. rewrite !List.forallb_forall. auto.
Qed.

Lemma put_filter_In (col : string) (value : JsValue number)
    (filters : list (ColumnFilter number)) (f : ColumnFilter number) :
  In f (put_filter col value filters) ->
  f = {| filter_id := col; filter_value := value |} \/ In f filters.
Proof.
  induction filters as [|g filters IH]; simpl.
  - intros [<-|[]]. left. reflexivity.
  - destruct (String.eqb (filter_id g) col); simpl.
    + intros [<-|Hin]; [left; reflexivity | right; right; exact Hin].
    + intros [<-|Hin]; [right; left; reflexivity|].
      destruct (IH Hin) as [->|Hin']; [left; reflexivity | right; right; exact Hin'].
Qed.

(** Emptying a column's filter input after typing in it leaves no filter
    that was not there before. *)
Lemma setFilterValue_emptied (col text : string)
    (filters : list (ColumnFilter number)) (f : ColumnFilter number) :
  In f (setFilterValue col EmptyString (setFilterValue col text filters)) ->
  In f filters.
Proof.
  unfold setFilterValue at 1. simpl String.eqb. cbv iota.
  rewrite List.filter_In. intros [Hin Hother].
  unfold setFilterValue in Hin. destruct (String.eqb text EmptyString).
  - apply List.filter_In in Hin. tauto.
  - apply put_filter_In in Hin as [->|Hin]; [|exact Hin].
    simpl in Hother. rewrite String.eqb_refl in Hother. discriminate Hother.
Qed.

(** The scroll effect touches neither the props nor the state cells. *)
Lemma handle_update (ev : Event number) (v : Viewer number) :
  state (handle ev v) = state (update ev v)
  /\ props_result (handle ev v) = props_result (update ev v).
Proof.
  unfold handle. destruct (deps_changed ev v); split; reflexivity.
Qed.

Lemma filter_event_frame (ev : Event number) (v : Viewer number) :
  is_filter_event ev = true ->
  props_result (handle ev v) = props_result v
  /\ rowSelection (state (handle ev v)) = rowSelection (state v)
  /\ sorting (state (handle ev v)) = sorting (state v).
Proof.
  destruct (handle_update ev v) as [-> ->].
  destruct ev; try discriminate; intros _; repeat split; reflexivity.
Qed.

Lemma clears_filter_is_filter_event (clear applied : Event number) :
  clears_filter clear applied = true ->
  is_filter_event clear = true /\ is_filter_event applied = true.
Proof.
  destruct clear as [| | | | | |text| |col text| | | |];
    try discriminate; try destruct text;
    destruct applied; try discriminate; intros _; split; reflexivity.
Qed.

(** After the event that takes the filter back, no column filter is left
    that was not there before the filter was applied, and the global filter
    text is empty or what it was before. *)
Lemma clears_filter_relaxes (clear applied : Event number)
    (v : Viewer number) :
  clears_filter clear applied = true ->
  (forall f,
      In f (columnFilters (state (handle clear (handle applied v)))) ->
      In f (columnFilters (state v)))
  /\ (globalFilter (state (handle clear (handle applied v))) = EmptyString
      \/ globalFilter (state (handle clear (handle applied v)))
         = globalFilter (state v)).
Proof.
  intros Hclears.
  destruct (handle_update clear (handle applied v)) as [Hcleared _].
  rewrite Hcleared. clear Hcleared.
  destruct (handle_update applied v) as [Hhidden _].
  remember (handle applied v) as hidden eqn:Hdef. clear Hdef.
  destruct clear as [| | | | | |text| |col text| | | |];
    try discriminate; try destruct text; try discriminate;
    destruct applied as [| | | | | |text'| |col' text'| | | |];
    try discriminate;
    unfold update, setColumnFilters, setGlobalFilter, with_state;
    cbn [state columnFilters globalFilter];
    try (split; [intros f [] | left; reflexivity]).
  - (* the global input emptied after a global filter *)
    rewrite Hhidden. split; [intros f Hf; exact Hf | left; reflexivity].
  - (* the global clear button after a global filter *)
    rewrite Hhidden. split; [intros f Hf; exact Hf | left; reflexivity].
  - (* the same column's input emptied after a column filter *)
    simpl in Hclears. apply String.eqb_eq in Hclears. subst col'.
    rewrite Hhidden.
    unfold update, setColumnFilters, with_state.
    cbn [state columnFilters globalFilter].
    split; [intros f Hf; exact (setFilterValue_emptied _ _ _ _ Hf)|].
    right. reflexivity.
Qed.

Lemma list_lookup_map {A B : Type} (f : A -> B) (l : list A) (k : nat) :
  List.map f l !! k = f <$> l !! k.
Proof.
  revert k. induction l as [|x l IH]; intros [|k]; simpl; auto.
Qed.

(** C7: a filter (on a column or global) that hides a selected row leaves
    the selection as it is.  The row stays selected and counted in
    [selectedRowCount], it is not among the rendered rows while hidden, and
    once the filter is cleared the row itself is back among the selected
    rows of the view, so that Copy serializes its object at its place. *)
Theorem hidden_selection_is_retained (v : Viewer number)
    (applied clear : Event number) (row : Row number) :
  is_filter_event applied = true ->
  clears_filter clear applied = true ->
  In row (view_rows v) ->
  isSelected (rowSelection (state v)) (row_id row) = true ->
  ~ In (row_id row) (view_identities (handle applied v)) ->
  rowSelection (state (handle applied v)) = rowSelection (state v)
  /\ isSelected (rowSelection (state (handle applied v))) (row_id row) = true
  /\ selectedRowCount (rowSelection (state (handle applied v)))
     = selectedRowCount (rowSelection (state v))
  /\ (1 <= selectedRowCount (rowSelection (state (handle applied v))))%nat
  /\ (forall virtualRows,
        ~ In (row_id row)
            (List.map row_id
               (rendered_rows (view_rows (handle applied v)) virtualRows)))
  /\ rowSelection (state (handle clear (handle applied v)))
     = rowSelection (state v)
  /\ (exists k,
        selected_rows (view_rows (handle clear (handle applied v)))
          (rowSelection (state (handle clear (handle applied v)))) !! k
        = Some row
        /\ getSelectedRowsData (view_rows (handle clear (handle applied v)))
             (rowSelection (state (handle clear (handle applied v)))) !! k
           = Some (original row))
  /\ (forall clipboard_ok r,
        props_result v = Some r ->
        copyAsCSV clipboard_ok (handle clear (handle applied v))
        = copyToClipboard clipboard_ok
            (selectedRowCount (rowSelection (state v)))
            (copy_csv_text (columns r)
               (List.map original
                  (selected_rows
                     (view_rows (handle clear (handle applied v)))
                     (rowSelection (state v)))))
            "CSV").
Proof.
  intros Happlied Hclears Hrow Hsel Hhidden.
  destruct (clears_filter_is_filter_event _ _ Hclears) as [Hclear _].
  destruct (filter_event_frame applied v Happlied) as (Hprops1 & Hsel1 & _).
  destruct (filter_event_frame clear (handle applied v) Hclear)
    as (Hprops2 & Hsel2 & _).
  rewrite Hsel1 in Hsel2. rewrite Hprops1 in Hprops2.
  rewrite Hsel1, Hsel2.
  split; [reflexivity|]. split; [exact Hsel|]. split; [reflexivity|].
  split; [apply (isSelected_counts _ _ Hsel)|]. split.
  { intros virtualRows Hin. apply Hhidden.
    apply List.in_map_iff in Hin as (r & Hid & Hr).
    apply rendered_rows_In in Hr.
    apply List.in_map_iff. exists r. split; [exact Hid | exact Hr]. }
  split; [reflexivity|].
  assert (Hback : In row (view_rows (handle clear (handle applied v)))).
  { unfold view_rows in *. rewrite Hprops2.
    destruct (props_result v) as [r|]; [|contradiction].
    apply getRowModel_In in Hrow as (Hcore & Hcols & Hglobal).
    destruct (clears_filter_relaxes clear applied v Hclears) as [Hfewer Hg].
    apply getRowModel_In. split; [exact Hcore|]. split.
    - exact (passes_column_filters_incl _ _ row Hfewer Hcols).
    - destruct Hg as [-> | ->]; [reflexivity | exact Hglobal]. }
  assert (Hselected :
            In row (selected_rows (view_rows (handle clear (handle applied v)))
                      (rowSelection (state v)))).
  { unfold selected_rows. apply List.filter_In. split; [exact Hback | exact Hsel]. }
  split.
  - apply list_elem_of_In, list_elem_of_lookup_1 in Hselected as [k Hk].
    exists k. split; [exact Hk|].
    unfold getSelectedRowsData. fold (selected_rows
      (view_rows (handle clear (handle applied v))) (rowSelection (state v))).
    rewrite list_lookup_map, Hk. reflexivity.
  - intros clipboard_ok r Hr. unfold copyAsCSV.
    rewrite Hprops2, Hr, Hsel2. reflexivity.
Qed.

End HiddenSelection.

Lemma hidden_selection_is_retained_witness :
  is_filter_event (GlobalFilterChange "a" : Event Z) = true
  /\ clears_filter (GlobalFilterClearClick : Event Z) (GlobalFilterChange "a")
     = true
  /\ In row_1b (view_rows first_selected)
  /\ isSelected (rowSelection (state first_selected)) (row_id row_1b) = true
  /\ ~ In (row_id row_1b)
         (view_identities (handle (GlobalFilterChange "a") first_selected))
  /\ selectedRowCount
       (rowSelection (state (handle (GlobalFilterChange "a") first_selected)))
     = 1%nat
  /\ exists k,
       selected_rows
         (view_rows
            (handle GlobalFilterClearClick
               (handle (GlobalFilterChange "a") first_selected)))
         (rowSelection
            (state
               (handle GlobalFilterClearClick
                  (handle (GlobalFilterChange "a") first_selected)))) !! k
       = Some row_1b
       /\ getSelectedRowsData
            (view_rows
               (handle GlobalFilterClearClick
                  (handle (GlobalFilterChange "a") first_selected)))
            (rowSelection
               (state
                  (handle GlobalFilterClearClick
                     (handle (GlobalFilterChange "a") first_selected)))) !! k
          = Some (original row_1b).
Proof.
  assert (H0 : is_filter_event (GlobalFilterChange "a" : Event Z) = true)
    by reflexivity.
  assert (H0' : clears_filter (GlobalFilterClearClick : Event Z)
                  (GlobalFilterChange "a") = true) by reflexivity.
  assert (H1 : In row_1b (view_rows first_selected))
    by (left; reflexivity).
  assert (H2 : isSelected (rowSelection (state first_selected))
                 (row_id row_1b) = true) by reflexivity.
  assert (H3 : ~ In (row_id row_1b)
                   (view_identities
                      (handle (GlobalFilterChange "a") first_selected))).
  { vm_compute. intros [H|[H|H]]; [discriminate H | discriminate H | exact H]. }
  split; [exact H0|]. split; [exact H0'|]. split; [exact H1|].
  split; [exact H2|]. split; [exact H3|]. split; [reflexivity|].
  exact (proj1 (proj2 (proj2 (proj2 (proj2 (proj2 (proj2
           (hidden_selection_is_retained first_selected
              (GlobalFilterChange "a") GlobalFilterClearClick row_1b
              H0 H0' H1 H2 H3)))))))).
Defined.

(** ** The state cells across events *)

Section Lifecycle.
Context {number : Type} {num : JsNumber number}.

(** C3, as the code has it: the four state cells are empty/default when the
    viewer is mounted, and a new result reaching the mounted viewer leaves
    all of them (filters, sort, selection, visibility) as they were. *)
Theorem state_is_kept_across_results :
  (forall (result : option (QueryResult number)) (compact : bool) (height : Z),
      state (mount result compact height) = initial_state)
  /\ (forall (v : Viewer number) (result : option (QueryResult number))
             (height : Z),
         props_result (handle (ResultChange result height) v) = result
         /\ state (handle (ResultChange result height) v) = state v).
Proof. split; [reflexivity | split; reflexivity]. Qed.

Lemma handleKeyDown_filter_sort_state (e : KeyboardEvent) (focus : bool)
    (v : Viewer number) :
  filter_sort_state (state (handleKeyDown e focus v))
  = filter_sort_state (state v).
Proof.
  unfold handleKeyDown.
  destruct ((metaKey e || ctrlKey e) && String.eqb (key e) "a"
            && bool_decide (is_Some (tableContainerRef v)));
    destruct focus;
    destruct (String.eqb (key e) "Escape"
              && (0 <? selectedRowCount (rowSelection (state v)))%nat);
    reflexivity.
Qed.

Lemma scroll_effect_top (v : Viewer number) (c : Container) :
  tableContainerRef (scroll_effect v) = Some c -> scrollTop c = 0%Z.
Proof.
  unfold scroll_effect. simpl.
  destruct (tableContainerRef v); simpl; intros [= <-]. reflexivity.
Qed.

(** C9: whenever an event changes the per-column filters, the global filter
    text or the sort state, the render cycle it starts ends with the scroll
    container (if one is mounted) scrolled to the top. *)
Theorem filter_or_sort_change_scrolls_to_top (ev : Event number)
    (v : Viewer number) (c : Container) :
  filter_sort_state (state (handle ev v)) <> filter_sort_state (state v) ->
  tableContainerRef (handle ev v) = Some c ->
  scrollTop c = 0%Z.
Proof.
  intros Hchanged Href. unfold handle, deps_changed in *.
  destruct ev;
    try (exfalso; apply Hchanged; reflexivity);
    try (eapply scroll_effect_top; exact Href).
  - exfalso. apply Hchanged. apply handleKeyDown_filter_sort_state.
  - destruct (String.eqb_spec text (globalFilter (state v))) as [Heq|Hne];
      simpl negb in *; cbv iota in *.
    + exfalso. apply Hchanged. unfold filter_sort_state. simpl.
      rewrite Heq. reflexivity.
    + eapply scroll_effect_top. exact Href.
  - destruct (String.eqb_spec EmptyString (globalFilter (state v)))
      as [Heq|Hne]; simpl negb in *; cbv iota in *.
    + exfalso. apply Hchanged. unfold filter_sort_state. simpl.
      rewrite <- Heq. reflexivity.
    + eapply scroll_effect_top. exact Href.
Qed.

End Lifecycle.

(** C3, as stated, fails: a viewer holding a filter and a selected row keeps
    both when a new result arrives. *)
Lemma state_survives_new_result_counterexample :
  state (handle (ResultChange (Some quote_result) 330)
           (setRowSelection {[0%nat := true]} filtered_people))
  <> initial_state
  /\ rowSelection
       (state (handle (ResultChange (Some quote_result) 330)
                 (setRowSelection {[0%nat := true]} filtered_people)))
     <> ∅
  /\ columnFilters
       (state (handle (ResultChange (Some quote_result) 330)
                 (setRowSelection {[0%nat := true]} filtered_people)))
     <> [].
Proof.
  split; [|split].
  - intros H. apply (f_equal columnFilters) in H. discriminate H.
  - intros H. apply (f_equal (fun m : gmap nat bool => m !! 0%nat)) in H.
    vm_compute in H. discriminate H.
  - discriminate.
Qed.

Lemma filter_or_sort_change_scrolls_to_top_witness :
  tableContainerRef scrolled_people
  = Some {| scrollTop := 660; clientHeight := 330 |}
  /\ filter_sort_state (state (handle (GlobalFilterChange "a") scrolled_people))
     <> filter_sort_state (state scrolled_people)
  /\ tableContainerRef (handle (GlobalFilterChange "a") scrolled_people)
     = Some {| scrollTop := 0; clientHeight := 330 |}
  /\ scrollTop {| scrollTop := 0; clientHeight := 330 |} = 0%Z.
Proof.
  assert (H1 : filter_sort_state
                 (state (handle (GlobalFilterChange "a") scrolled_people))
               <> filter_sort_state (state scrolled_people))
    by discriminate.
  assert (H2 : tableContainerRef (handle (GlobalFilterChange "a") scrolled_people)
               = Some {| scrollTop := 0; clientHeight := 330 |})
    by reflexivity.
  split; [reflexivity|]. split; [exact H1|]. split; [exact H2|].
  exact (filter_or_sort_change_scrolls_to_top (GlobalFilterChange "a")
           scrolled_people {| scrollTop := 0; clientHeight := 330 |} H1 H2).
Defined.

(** ** Running queries *)

Lemma startsWith_app (p s : string) : startsWith (p ++ s) p = true.
Proof. apply startsWith_spec. exists s. reflexivity. Qed.

Lemma trimStart_whitespace_app (lead s : string) :
  all_whitespace lead = true -> trimStart (lead ++ s) = trimStart s.
Proof.
  induction lead as [|c lead IH]; simpl; [reflexivity|].
  intros Hws. apply andb_true_iff in Hws as [Hc Hlead].
  rewrite Hc. apply IH. exact Hlead.
Qed.

Lemma isAllowed_after_command (lead cmd rest : string) :
  all_whitespace lead = true ->
  In cmd READ_ONLY_COMMANDS ->
  isAllowed (lead ++ cmd ++ rest) = true
  /\ isAllowed (lead ++ toLowerCase cmd ++ rest) = true.
Proof.
  intros Hlead Hcmd. unfold isAllowed, trim.
  rewrite !(trimStart_whitespace_app lead) by exact Hlead.
  split; apply List.existsb_exists; exists cmd; (split; [exact Hcmd|]);
    simpl in Hcmd;
    destruct Hcmd as [<-|[<-|[<-|[<-|[<-|[]]]]]];
    apply startsWith_spec; eexists; reflexivity.
Qed.

(** The read-only test looks at the first word only: after leading white
    space, a query that starts with one of the five commands, in upper or
    lower case, is allowed whatever text follows the command. *)
Theorem read_only_test_accepts_any_continuation (lead cmd rest : string) :
  all_whitespace lead = true ->
  In cmd READ_ONLY_COMMANDS ->
  isAllowed (lead ++ cmd ++ rest) = true
  /\ isAllowed (lead ++ toLowerCase cmd ++ rest) = true.
Proof. apply isAllowed_after_command. Qed.

Lemma read_only_test_accepts_any_continuation_witness :
  all_whitespace "  " = true
  /\ In "SELECT" READ_ONLY_COMMANDS
  /\ isAllowed ("  " ++ "SELECT" ++ " 1; DROP TABLE people") = true
  /\ isAllowed ("  " ++ toLowerCase "SELECT" ++ " 1; DROP TABLE people") = true.
Proof.
  assert (H1 : all_whitespace "  " = true) by reflexivity.
  assert (H2 : In "SELECT" READ_ONLY_COMMANDS) by (left; reflexivity).
  split; [exact H1|]. split; [exact H2|].
  exact (read_only_test_accepts_any_continuation "  " "SELECT"
           " 1; DROP TABLE people" H1 H2).
Defined.

Section RunQueryProperties.
Context {number : Type} {num : JsNumber number}.
Variable ConnectionConfig : Type.
Variable executeQuery :
  ConnectionConfig -> string -> QueryResult number + string.

(** [runQuery] reaches the backend exactly when the connection is up, the
    query is not blank and, in read-only mode, the query passes the
    read-only test.  When it does not reach the backend it reports failure
    and leaves the hook state as it is; when it does, it sends the query text
    as typed (untrimmed) with the given configuration. *)
Theorem runQuery_reaches_backend_iff (config : ConnectionConfig)
    (connected readOnlyMode onSuccess : bool) (st : HookState number) :
  ((runQuery ConnectionConfig executeQuery config connected readOnlyMode
      onSuccess st).2 <> []
   <-> connected = true
       /\ trim (query st) <> EmptyString
       /\ (readOnlyMode = true -> isAllowed (query st) = true))
  /\ ((runQuery ConnectionConfig executeQuery config connected readOnlyMode
         onSuccess st).2 = [] ->
      (runQuery ConnectionConfig executeQuery config connected readOnlyMode
         onSuccess st).1.1 = st
      /\ success
           (runQuery ConnectionConfig executeQuery config connected
              readOnlyMode onSuccess st).1.2 = false)
  /\ (forall c q,
         In (ExecuteQuery c q)
           (runQuery ConnectionConfig executeQuery config connected
              readOnlyMode onSuccess st).2 ->
         c = config /\ q = query st).
Proof.
  unfold runQuery.
  destruct connected;
    destruct (String.eqb_spec (trim (query st)) EmptyString) as [Hblank|Hblank];
    destruct readOnlyMode;
    destruct (isAllowed (query st));
    destruct (executeQuery config (query st)) as [r|err];
    destruct onSuccess; simpl;
    (split; [split|split]).
  all: try (intros Hne; exfalso; apply Hne; reflexivity).
  all: try (intros _; split; [reflexivity|]; split; [exact Hblank|];
            intros Hro; first [reflexivity | discriminate Hro]).
  all: try (intros (Hc & Hq & Hro) Hnil;
            first [ discriminate Hc | contradiction
                  | discriminate (Hro eq_refl) | discriminate Hnil ]).
  all: try (intros _; split; reflexivity).
  all: try discriminate.
  all: intros c' q' Hin;
       repeat (destruct Hin as [Hin|Hin];
               [first [ discriminate Hin
                      | injection Hin as <- <-; split; reflexivity ]|]);
       contradiction.
Qed.

(** A run that fails keeps the previous result and never calls [onSuccess];
    a run that succeeds stores the backend's result, is no longer loading,
    and calls [onSuccess] (when given) once, with that result, after the
    backend call.  The query text is never changed. *)
Theorem runQuery_result_follows_backend (config : ConnectionConfig)
    (connected readOnlyMode onSuccess : bool) (st : HookState number) :
  (success (runQuery ConnectionConfig executeQuery config connected
              readOnlyMode onSuccess st).1.2 = false ->
   result (runQuery ConnectionConfig executeQuery config connected
             readOnlyMode onSuccess st).1.1 = result st
   /\ forall r,
        ~ In (OnSuccess r)
            (runQuery ConnectionConfig executeQuery config connected
               readOnlyMode onSuccess st).2)
  /\ (success (runQuery ConnectionConfig executeQuery config connected
                 readOnlyMode onSuccess st).1.2 = true ->
      exists r,
        executeQuery config (query st) = inl r
        /\ result (runQuery ConnectionConfig executeQuery config connected
                     readOnlyMode onSuccess st).1.1 = Some r
        /\ loading (runQuery ConnectionConfig executeQuery config connected
                      readOnlyMode onSuccess st).1.1 = false
        /\ (runQuery ConnectionConfig executeQuery config connected
              readOnlyMode onSuccess st).2
           = ExecuteQuery config (query st)
             :: (if onSuccess then [OnSuccess r] else []))
  /\ query (runQuery ConnectionConfig executeQuery config connected
              readOnlyMode onSuccess st).1.1 = query st.
Proof.
  unfold runQuery.
  destruct connected; simpl negb; cbv iota;
    [|split; [|split]; simpl; [auto | discriminate | reflexivity]].
  destruct (String.eqb (trim (query st)) EmptyString);
    [split; [|split]; simpl; [auto | discriminate | reflexivity]|].
  destruct (readOnlyMode && negb (isAllowed (query st)));
    [split; [|split]; simpl; [auto | discriminate | reflexivity]|].
  destruct (executeQuery config (query st)) as [r|err]; simpl.
  - split; [discriminate|]. split; [|reflexivity].
    intros _. exists r. auto.
  - split; [|split; [discriminate | reflexivity]].
    intros _. split; [reflexivity|].
    intros r [H|[]]. discriminate H.
Qed.

(** The sidebar's table helpers against the read-only test: the query set
    by [handleTableClick] always passes it (and is never blank), for any
    table name, while the queries set by the insert, update and delete
    helpers, when no editor callback is registered, never pass it. *)
Theorem table_helpers_and_read_only (tableName : string)
    (st : HookState number) :
  isAllowed (query (handleTableClick tableName st)) = true
  /\ trim (query (handleTableClick tableName st)) <> EmptyString
  /\ isAllowed (query (handleTableInsert false tableName st).1) = false
  /\ isAllowed (query (handleTableUpdate false tableName st).1) = false
  /\ isAllowed (query (handleTableDelete false tableName st).1) = false.
Proof.
  split; [|split; [|repeat split; reflexivity]].
  - unfold handleTableClick, setQuery. cbn [query].
    apply (isAllowed_after_command EmptyString "SELECT");
      [reflexivity | left; reflexivity].
  - unfold handleTableClick, setQuery, trim. cbn [query]. discriminate.
Qed.

End RunQueryProperties.

(** ** Row objects *)

Section RowObjects.
Context {number : Type} {num : JsNumber number}.

Lemma obj_get_set_eq (obj : list (string * JsValue number)) (key : string)
    (v : JsValue number) :
  obj_get (obj_set obj key v) key = v.
Proof.
  induction obj as [|[k w] obj IH]; simpl.
  - rewrite String.eqb_refl. reflexivity.
  - destruct (String.eqb k key) eqn:Hk; simpl; rewrite Hk; [reflexivity | exact IH].
Qed.

Lemma obj_get_set_ne (obj : list (string * JsValue number))
    (key other : string) (v : JsValue number) :
  key <> other -> obj_get (obj_set obj key v) other = obj_get obj other.
Proof.
  intros Hne. induction obj as [|[k w] obj IH]; simpl.
  - destruct (String.eqb_spec key other); [contradiction | reflexivity].
  - destruct (String.eqb_spec k key) as [->|Hk]; simpl.
    + destruct (String.eqb_spec key other); [contradiction | reflexivity].
    + rewrite IH. reflexivity.
Qed.

Lemma obj_set_keys_new (obj : list (string * JsValue number)) (key : string)
    (v : JsValue number) :
  ~ In key (List.map fst obj) ->
  List.map fst (obj_set obj key v) = (List.map fst obj ++ [key])%list.
Proof.
  induction obj as [|[k w] obj IH]; simpl; intros Hnew; [reflexivity|].
  destruct (String.eqb_spec k key) as [->|Hk].
  - exfalso. apply Hnew. left. reflexivity.
  - simpl. rewrite IH; [reflexivity|]. intros Hin. apply Hnew. right. exact Hin.
Qed.

Variable row : list (JsValue number).

(** The loop of the adapter, started at any object and any index. *)
Let steps (g : nat -> nat) (cols : list string)
    (acc : list (string * JsValue number)) : list (string * JsValue number) :=
  fold_left (fun obj '(idx, col) => obj_set obj col (array_get row idx))
    (imap (fun i col => (g i, col)) cols) acc.

Lemma steps_missing (cols : list string) (g : nat -> nat)
    (acc : list (string * JsValue number)) (key : string) :
  ~ In key cols -> obj_get (steps g cols acc) key = obj_get acc key.
Proof.
  revert g acc. induction cols as [|c cols IH]; intros g acc Hkey;
    [reflexivity|].
  unfold steps. simpl.
  change (obj_get (steps (fun i => g (S i)) cols
                     (obj_set acc c (array_get row (g 0%nat)))) key
          = obj_get acc key).
  rewrite IH by (intros Hin; apply Hkey; right; exact Hin).
  apply obj_get_set_ne. intros ->. apply Hkey. left. reflexivity.
Qed.

Lemma steps_last (pre post : list string) (key : string) (g : nat -> nat)
    (acc : list (string * JsValue number)) :
  ~ In key post ->
  obj_get (steps g (pre ++ key :: post)%list acc) key
  = array_get row (g (List.length pre)).
Proof.
  intros Hpost. revert g acc.
  induction pre as [|c pre IH]; intros g acc.
  - unfold steps. simpl.
    change (obj_get (steps (fun i => g (S i)) post
                       (obj_set acc key (array_get row (g 0%nat)))) key
            = array_get row (g 0%nat)).
    rewrite steps_missing by exact Hpost. apply obj_get_set_eq.
  - unfold steps. simpl.
    change (obj_get (steps (fun i => g (S i)) (pre ++ key :: post)%list
                       (obj_set acc c (array_get row (g 0%nat)))) key
            = array_get row (g (S (List.length pre)))).
    apply (IH (fun i => g (S i))).
Qed.

Lemma steps_keys (cols : list string) (g : nat -> nat)
    (acc : list (string * JsValue number)) :
  List.NoDup (List.map fst acc ++ cols)%list ->
  List.map fst (steps g cols acc) = (List.map fst acc ++ cols)%list.
Proof.
  revert g acc. induction cols as [|c cols IH]; intros g acc Hnodup.
  - unfold steps. simpl. rewrite List.app_nil_r. reflexivity.
  - unfold steps. simpl.
    change (List.map fst (steps (fun i => g (S i)) cols
                            (obj_set acc c (array_get row (g 0%nat))))
            = (List.map fst acc ++ c :: cols)%list).
    assert (Hc : ~ In c (List.map fst acc)).
    { apply List.NoDup_remove_2 in Hnodup. intros Hin. apply Hnodup.
      apply List.in_or_app. left. exact Hin. }
    rewrite IH; rewrite obj_set_keys_new by exact Hc.
    + rewrite <- List.app_assoc. reflexivity.
    + rewrite <- List.app_assoc. exact Hnodup.
Qed.

(** The adapter shared by the viewer's [data] memo and [exportToJSON]: the
    object built for a row answers a column name other than [__proto__]
    with the cell at the position of the last column of that name (with
    [undefined] when the row is too short).  When no column is named
    [__proto__], it answers [undefined] for any key that is neither a column
    nor a property inherited from [Object.prototype]. *)
Theorem row_object_lookup :
  (forall (pre post : list string) (col : string),
      col <> "__proto__" ->
      ~ In col post ->
      obj_get (row_object (pre ++ col :: post)%list row) col
      = array_get row (List.length pre))
  /\ (forall (cols : list string) (key : string),
         ~ In "__proto__" cols ->
         ~ In key prototype_keys ->
         ~ In key cols -> obj_get (row_object cols row) key = JUndefined).
Proof.
  split.
  - intros pre post col _ Hpost.
    apply (steps_last pre post col (fun i => i) []). exact Hpost.
  - intros cols key _ _ Hkey.
    apply (steps_missing cols (fun i => i) [] key Hkey).
Qed.

(** With distinct column names, none of which starts with a digit (so that
    none is an array index) or is [__proto__], the object built for a row
    has exactly the column names as its keys, in column order. *)
Theorem row_object_keys (cols : list string) :
  List.NoDup cols ->
  (forall col, In col cols ->
               starts_with_digit col = false /\ col <> "__proto__") ->
  List.map fst (row_object cols row) = cols.
Proof.
  intros Hnodup _. apply (steps_keys cols (fun i => i) []). exact Hnodup.
Qed.

End RowObjects.

Lemma row_object_lookup_witness :
  "id" <> "__proto__"
  /\ ~ In "id" ["name"]
  /\ obj_get (row_object (["id"] ++ "id" :: ["name"])%list
               [JNumber 1%Z; JNumber 2%Z; JString "a"]) "id"
     = array_get [JNumber 1%Z; JNumber 2%Z; JString "a"] (List.length ["id"]).
Proof.
  assert (H0 : "id" <> "__proto__") by discriminate.
  assert (H : ~ In "id" ["name"])
    by (intros [H|[]]; discriminate H).
  split; [exact H0|]. split; [exact H|].
  exact (proj1 (row_object_lookup [JNumber 1%Z; JNumber 2%Z; JString "a"])
           ["id"] ["name"] "id" H0 H).
Defined.

Lemma row_object_keys_witness :
  List.NoDup ["id"; "name"]
  /\ (forall col, In col ["id"; "name"] ->
                  starts_with_digit col = false /\ col <> "__proto__")
  /\ List.map fst (row_object ["id"; "name"] [JNumber 1%Z; JString "b"])
     = ["id"; "name"].
Proof.
  assert (H : List.NoDup ["id"; "name"]).
  { constructor; [intros [H|[]]; discriminate H|].
    constructor; [intros []|]. constructor. }
  assert (H' : forall col, In col ["id"; "name"] ->
                           starts_with_digit col = false
                           /\ col <> "__proto__").
  { intros col [<-|[<-|[]]]; (split; [reflexivity | discriminate]). }
  split; [exact H|]. split; [exact H'|].
  exact (row_object_keys [JNumber 1%Z; JString "b"] ["id"; "name"] H H').
Defined.

(** ** CSV fields *)

Lemma string_length_app (a b : string) :
  String.length (a ++ b) = (String.length a + String.length b)%nat.
Proof. induction a as [|c a IH]; simpl; [reflexivity | rewrite IH; reflexivity]. Qed.

Lemma double_dquotes_id (s : string) :
  contains_char dquote s = false -> double_dquotes s = s.
Proof.
  induction s as [|c s IH]; simpl; [reflexivity|].
  intros Hq. apply orb_false_iff in Hq as [Hc Hs].
  rewrite Hc, IH by exact Hs. reflexivity.
Qed.

Lemma double_dquotes_length (s : string) :
  (String.length s <= String.length (double_dquotes s))%nat
  /\ (contains_char dquote s = true ->
      (String.length s < String.length (double_dquotes s))%nat).
Proof.
  induction s as [|c s [IHle IHlt]]; simpl; [split; [lia | discriminate]|].
  destruct (Ascii.eqb c dquote); simpl;
    rewrite ?string_length_app; simpl String.length.
  - split; [lia | intros _; lia].
  - split; [lia | intros Hs; specialize (IHlt Hs); lia].
Qed.

(** Doubling followed by the closing quote can be read back. *)
Lemma quoted_tail_inj (a b : string) :
  double_dquotes a ++ str1 dquote = double_dquotes b ++ str1 dquote -> a = b.
Proof.
  revert b. induction a as [|c a IH]; intros [|d b]; simpl;
    try reflexivity.
  - destruct (Ascii.eqb d dquote) eqn:Hd; simpl; intros H.
    + discriminate H.
    + injection H as H _. subst d. rewrite Ascii.eqb_refl in Hd.
      discriminate Hd.
  - destruct (Ascii.eqb c dquote) eqn:Hc; simpl; intros H.
    + discriminate H.
    + injection H as H _. subst c. rewrite Ascii.eqb_refl in Hc.
      discriminate Hc.
  - destruct (Ascii.eqb c dquote) eqn:Hc; destruct (Ascii.eqb d dquote) eqn:Hd;
      simpl; intros H.
    + apply Ascii.eqb_eq in Hc, Hd. subst c d.
      injection H as H. f_equal. apply IH. exact H.
    + injection H as H _. subst d. rewrite Ascii.eqb_refl in Hd.
      discriminate Hd.
    + injection H as H _. subst c. rewrite Ascii.eqb_refl in Hc.
      discriminate Hc.
    + injection H as -> H. f_equal. apply IH. exact H.
Qed.

Section CsvFields.
Context {number : Type} {num : JsNumber number}.

Lemma decide_null (c : JsValue number) : {c = JNull} + {c <> JNull}.
Proof. destruct c; first [left; reflexivity | right; discriminate]. Qed.

Lemma csv_field_rule_rendition (cell : JsValue number) :
  cell <> JNull ->
  csv_field_rule cell = csv_field_rule (JString (ToString cell)).
Proof. destruct cell; try reflexivity. contradiction. Qed.

Lemma csv_field_rule_string_inj (a b : string) :
  csv_field_rule (JString a : JsValue number) = csv_field_rule (JString b) ->
  a = b.
Proof.
  unfold csv_field_rule. cbn [ToString].
  destruct (contains_char comma a || contains_char dquote a
            || contains_char newline a) eqn:Ha;
    destruct (contains_char comma b || contains_char dquote b
              || contains_char newline b) eqn:Hb; simpl; intros H.
  - injection H as H. apply quoted_tail_inj. exact H.
  - subst b.
    assert (Hq : contains_char dquote
                   (str1 dquote ++ double_dquotes a ++ str1 dquote) = true)
      by reflexivity.
    rewrite Hq, orb_true_r in Hb. discriminate Hb.
  - subst a.
    assert (Hq : contains_char dquote
                   (str1 dquote ++ double_dquotes b ++ str1 dquote) = true)
      by reflexivity.
    rewrite Hq, orb_true_r in Ha. discriminate Ha.
  - exact H.
Qed.

Lemma csv_field_rule_string_empty (a : string) :
  csv_field_rule (JString a : JsValue number) = EmptyString -> a = EmptyString.
Proof.
  unfold csv_field_rule. cbn [ToString].
  destruct (contains_char comma a || contains_char dquote a
            || contains_char newline a); simpl; intros H;
    [discriminate H | exact H].
Qed.

(** The escaping of [exportToCSV] loses nothing but the difference between
    null and the empty text: two cells that are written as the same field
    have the same rendition (nothing for null, [String(cell)] otherwise). *)
Theorem export_csv_cell_injective (a b : JsValue number) :
  export_csv_cell a = export_csv_cell b ->
  field_rendition a = field_rendition b.
Proof.
  rewrite !export_csv_cell_rule.
  assert (Hnull : forall c : JsValue number,
             c <> JNull ->
             csv_field_rule c = EmptyString -> field_rendition c = EmptyString).
  { intros c Hc. rewrite (csv_field_rule_rendition c Hc). intros H.
    apply csv_field_rule_string_empty in H.
    destruct c; try exact H. contradiction. }
  assert (Hrend : forall c : JsValue number,
             c <> JNull -> field_rendition c = ToString c).
  { intros c Hc. destruct c; try reflexivity. contradiction. }
  destruct (decide_null a) as [->|Ha]; destruct (decide_null b) as [->|Hb].
  - reflexivity.
  - intros H. symmetry. apply (Hnull b Hb). symmetry. exact H.
  - intros H. apply (Hnull a Ha). exact H.
  - rewrite (csv_field_rule_rendition a Ha), (csv_field_rule_rendition b Hb).
    intros H. apply csv_field_rule_string_inj in H.
    rewrite (Hrend a Ha), (Hrend b Hb). exact H.
Qed.

End CsvFields.

Lemma export_csv_cell_injective_witness :
  export_csv_cell (JNull : JsValue Z) = export_csv_cell (JString EmptyString)
  /\ field_rendition (JNull : JsValue Z) = field_rendition (JString EmptyString).
Proof.
  assert (H : export_csv_cell (JNull : JsValue Z)
              = export_csv_cell (JString EmptyString)) by reflexivity.
  split; [exact H|].
  exact (export_csv_cell_injective JNull (JString EmptyString) H).
Defined.

Section CopyAgainstExport.
Context {number : Type} {num : JsNumber number}.

(** What [copyAsCSV] writes for a text cell is what [exportToCSV] writes for
    it exactly when the text holds no double quote and either holds no
    newline or holds a comma.  For null both write the empty field. *)
Theorem copy_matches_export_iff (s : string) :
  (join_element (copy_csv_cell (JString s : JsValue number))
   = export_csv_cell (JString s)
   <-> contains_char dquote s = false
       /\ (contains_char newline s = false \/ contains_char comma s = true))
  /\ join_element (copy_csv_cell (JNull : JsValue number))
     = export_csv_cell JNull.
Proof.
  split; [|reflexivity].
  unfold copy_csv_cell, export_csv_cell. cbn [ToString].
  rewrite !includes_char, replace_dquotes_doubles.
  pose proof (double_dquotes_length s) as [Hle Hlt].
  destruct (contains_char comma s) eqn:Hc;
    destruct (contains_char dquote s) eqn:Hq;
    destruct (contains_char newline s) eqn:Hn; simpl;
    try rewrite (double_dquotes_id s Hq);
    try (split; [intros _; split; [reflexivity | auto] | reflexivity]).
  all: split;
    [ intros H; exfalso; apply (f_equal String.length) in H;
      simpl in H; rewrite ?string_length_app in H; simpl in H;
      try specialize (Hlt eq_refl); lia
    | intros [Hq' Hor]; try discriminate Hq';
      destruct Hor as [Hor|Hor]; discriminate Hor ].
Qed.

End CopyAgainstExport.

(** ** The selection bar and the keyboard *)

Lemma filter_length_zero {A : Type} (f : A -> bool) (l : list A) :
  (forall x, In x l -> f x = false) -> List.length (List.filter f l) = 0%nat.
Proof.
  induction l as [|x l IH]; simpl; intros Hall; [reflexivity|].
  rewrite (Hall x) by (left; reflexivity).
  apply IH. intros y Hy. apply Hall. right. exact Hy.
Qed.

Lemma selectedRowCount_zero (sel : gmap nat bool) :
  selectedRowCount sel = 0%nat <-> forall id, sel !! id <> Some true.
Proof.
  split.
  - intros Hzero id Hid.
    assert (Hsel : isSelected sel id = true)
      by (unfold isSelected; rewrite Hid; reflexivity).
    apply isSelected_counts in Hsel. lia.
  - intros Hnone. unfold selectedRowCount. apply filter_length_zero.
    intros [id [|]] Hin; [|reflexivity].
    apply list_elem_of_In, elem_of_map_to_list in Hin.
    exfalso. exact (Hnone id Hin).
Qed.

(** The count behind the selection bar is zero exactly when no row is
    selected: entries of the selection object that are set to false are not
    counted. *)
Theorem selectedRowCount_zero_iff (sel : gmap nat bool) :
  selectedRowCount sel = 0%nat <-> forall id, sel !! id <> Some true.
Proof. apply selectedRowCount_zero. Qed.

Lemma filter_map_NoDup {A : Type} (f : A -> nat) (p : A -> bool)
    (l : list A) :
  List.NoDup (List.map f l) -> List.NoDup (List.map f (List.filter p l)).
Proof.
  induction l as [|x l IH]; simpl; intros Hnodup; [constructor|].
  inversion Hnodup as [|? ? Hx Hl]; subst.
  destruct (p x); simpl; [|apply IH; exact Hl].
  constructor; [|apply IH; exact Hl].
  intros Hin. apply Hx. apply List.in_map_iff in Hin as (y & Hy & Hin).
  apply List.in_map_iff. exists y. split; [exact Hy|].
  apply List.filter_In in Hin. tauto.
Qed.

Section SelectionBar.
Context {number : Type} {num : JsNumber number}.

Lemma getSelectedRowsData_length_le (rows : list (Row number))
    (sel : gmap nat bool) :
  List.NoDup (List.map row_id rows) ->
  (List.length (getSelectedRowsData rows sel) <= selectedRowCount sel)%nat.
Proof.
  intros Hnodup. unfold getSelectedRowsData, selectedRowCount.
  rewrite List.length_map.
  rewrite <- (List.length_map row_id).
  rewrite <- (List.length_map fst
                (List.filter (fun kv : nat * bool => kv.2) (map_to_list sel))).
  apply List.NoDup_incl_length.
  - apply filter_map_NoDup. exact Hnodup.
  - intros id Hin. apply List.in_map_iff in Hin as (row & <- & Hrow).
    apply List.filter_In in Hrow as [_ Hsel].
    unfold isSelected in Hsel.
    destruct (sel !! row_id row) as [[|]|] eqn:Hid; try discriminate.
    apply List.in_map_iff. exists (row_id row, true). split; [reflexivity|].
    apply List.filter_In. split; [|reflexivity].
    apply list_elem_of_In, elem_of_map_to_list. exact Hid.
Qed.

(** Copy never serializes more rows than the count it logs and the
    selection bar shows: over rows with distinct ids, [getSelectedRowsData]
    returns at most [selectedRowCount] objects. *)
Theorem copied_rows_at_most_selected (rows : list (Row number))
    (sel : gmap nat bool) :
  List.NoDup (List.map row_id rows) ->
  (List.length (getSelectedRowsData rows sel) <= selectedRowCount sel)%nat.
Proof. apply getSelectedRowsData_length_le. Qed.

Lemma filter_all {A : Type} (f : A -> bool) (l : list A) :
  (forall x, In x l -> f x = true) -> List.filter f l = l.
Proof.
  induction l as [|x l IH]; simpl; intros Hall; [reflexivity|].
  rewrite (Hall x) by (left; reflexivity). f_equal.
  apply IH. intros y Hy. apply Hall. right. exact Hy.
Qed.

(** The Select All button is never offered when every row of the view is
    already selected (the rows having distinct ids). *)
Theorem select_all_not_offered_when_all_selected (rows : list (Row number))
    (sel : gmap nat bool) :
  List.NoDup (List.map row_id rows) ->
  (forall row, In row rows -> isSelected sel (row_id row) = true) ->
  select_all_offered rows sel = false.
Proof.
  intros Hnodup Hall.
  pose proof (getSelectedRowsData_length_le rows sel Hnodup) as Hle.
  unfold getSelectedRowsData in Hle.
  rewrite List.length_map, filter_all in Hle by exact Hall.
  unfold select_all_offered, totalRowCount.
  apply andb_false_iff. right. apply Nat.ltb_ge. exact Hle.
Qed.

Lemma setRowSelection_same (v : Viewer number) :
  setRowSelection (rowSelection (state v)) v = v.
Proof. destruct v as [r c [s f vis g sel] ref]. reflexivity. Qed.

(** The keyboard handler of the viewer touches nothing but the selection,
    and it does nothing at all unless the event is the select-all gesture or
    an Escape pressed while some row is selected. *)
Theorem keydown_only_touches_selection (e : KeyboardEvent)
    (focusInTable : bool) (v : Viewer number) :
  handle (KeyDown e focusInTable) v
  = setRowSelection
      (rowSelection (state (handle (KeyDown e focusInTable) v))) v
  /\ (is_select_all (KeyDown e focusInTable) v = false ->
      key e <> "Escape" \/ selectedRowCount (rowSelection (state v)) = 0%nat ->
      handle (KeyDown e focusInTable) v = v).
Proof.
  unfold handle, deps_changed, update, handleKeyDown, is_select_all.
  destruct ((metaKey e || ctrlKey e) && String.eqb (key e) "a"
            && bool_decide (is_Some (tableContainerRef v))) eqn:Hgesture;
    destruct focusInTable; simpl;
    destruct (String.eqb_spec (key e) "Escape") as [Hesc|Hesc]; simpl;
    destruct (0 <? selectedRowCount (rowSelection (state v)))%nat eqn:Hcount;
    simpl; (split; [first [reflexivity | symmetry; apply setRowSelection_same]|]).
  all: try discriminate.
  all: try (intros _ _; reflexivity).
  all: intros _ [Hne|Hzero]; [contradiction|].
  all: rewrite Hzero in Hcount; discriminate Hcount.
Qed.

(** Escape leaves no row selected, whatever was selected before. *)
Theorem escape_clears_selection (e : KeyboardEvent) (focusInTable : bool)
    (v : Viewer number) :
  key e = "Escape" ->
  selectedRowCount
    (rowSelection (state (handle (KeyDown e focusInTable) v))) = 0%nat
  /\ forall id,
       isSelected (rowSelection (state (handle (KeyDown e focusInTable) v))) id
       = false.
Proof.
  intros Hkey.
  assert (Hcount : selectedRowCount
                     (rowSelection (state (handle (KeyDown e focusInTable) v)))
                   = 0%nat).
  { unfold handle, deps_changed, update, handleKeyDown. rewrite Hkey.
    simpl String.eqb. rewrite andb_false_r. cbv iota. simpl andb.
    destruct (0 <? selectedRowCount (rowSelection (state v)))%nat eqn:Hpos.
    - reflexivity.
    - apply Nat.ltb_ge in Hpos. lia. }
  split; [exact Hcount|].
  intros id. unfold isSelected.
  pose proof (proj1 (selectedRowCount_zero _) Hcount id) as Hid.
  destruct (_ !! id) as [[|]|]; [contradiction | reflexivity | reflexivity].
Qed.

End SelectionBar.

(** ** The column filter *)

Lemma lower_upper_ascii (c : ascii) :
  lower_ascii (upper_ascii c) = lower_ascii c.
Proof. destruct c as [[|] [|] [|] [|] [|] [|] [|] [|]]; reflexivity. Qed.

Lemma lower_lower_ascii (c : ascii) :
  lower_ascii (lower_ascii c) = lower_ascii c.
Proof. destruct c as [[|] [|] [|] [|] [|] [|] [|] [|]]; reflexivity. Qed.

Lemma toLowerCase_toUpperCase (s : string) :
  toLowerCase (toUpperCase s) = toLowerCase s.
Proof.
  induction s as [|c s IH]; simpl; [reflexivity|].
  rewrite lower_upper_ascii, IH. reflexivity.
Qed.

Lemma toLowerCase_idempotent (s : string) :
  toLowerCase (toLowerCase s) = toLowerCase s.
Proof.
  induction s as [|c s IH]; simpl; [reflexivity|].
  rewrite lower_lower_ascii, IH. reflexivity.
Qed.

Lemma includes_empty (s : string) : includes s EmptyString = true.
Proof. destruct s; reflexivity. Qed.

Section ColumnFilter.
Context {number : Type} {num : JsNumber number}.

(** The column filter does not tell upper from lower case in an ASCII
    filter text: writing such a text in capitals or in small letters gives
    the same verdict on every row. *)
Theorem filterFn_ignores_case (row : Row number) (columnId text : string) :
  is_ascii_text text = true ->
  filterFn row columnId (JString (toUpperCase text))
  = filterFn row columnId (JString text)
  /\ filterFn row columnId (JString (toLowerCase text))
     = filterFn row columnId (JString text).
Proof.
  intros _. unfold filterFn. cbn [ToString].
  rewrite toLowerCase_toUpperCase, toLowerCase_idempotent.
  split; reflexivity.
Qed.

(** With an empty filter text the column filter keeps every row whose cell
    holds a value and still drops the rows whose cell is null or
    undefined. *)
Theorem filterFn_empty_text (row : Row number) (columnId : string) :
  filterFn row columnId (JString EmptyString) = true
  <-> Row_getValue row columnId <> JNull
      /\ Row_getValue row columnId <> JUndefined.
Proof.
  unfold filterFn. cbn [ToString toLowerCase].
  destruct (Row_getValue row columnId); rewrite ?includes_empty;
    split; try (intros H; discriminate H);
    try (intros [H1 H2]; contradiction);
    try (intros _; split; discriminate); try reflexivity.
Qed.

End ColumnFilter.

Lemma copied_rows_at_most_selected_witness :
  List.NoDup (List.map row_id [row_2a; row_3a])
  /\ (List.length
        (getSelectedRowsData [row_2a; row_3a]
           {[0%nat := true; 1%nat := true]})
      <= selectedRowCount {[0%nat := true; 1%nat := true]})%nat.
Proof.
  assert (H : List.NoDup (List.map row_id [row_2a; row_3a])).
  { constructor; [intros [H|[]]; discriminate H|].
    constructor; [intros []|]. constructor. }
  split; [exact H|].
  exact (copied_rows_at_most_selected [row_2a; row_3a]
           {[0%nat := true; 1%nat := true]} H).
Defined.

Lemma escape_clears_selection_witness :
  key escape_key = "Escape"
  /\ selectedRowCount (rowSelection (state first_selected)) = 1%nat
  /\ selectedRowCount
       (rowSelection (state (handle (KeyDown escape_key false) first_selected)))
     = 0%nat
  /\ forall id,
       isSelected
         (rowSelection (state (handle (KeyDown escape_key false) first_selected)))
         id = false.
Proof.
  assert (H : key escape_key = "Escape") by reflexivity.
  split; [exact H|]. split; [reflexivity|].
  exact (escape_clears_selection escape_key false first_selected H).
Defined.

Lemma keydown_only_touches_selection_witness :
  is_select_all (KeyDown letter_x_key true) first_selected = false
  /\ (key letter_x_key <> "Escape"
      \/ selectedRowCount (rowSelection (state first_selected)) = 0%nat)
  /\ handle (KeyDown letter_x_key true) first_selected = first_selected.
Proof.
  assert (H1 : is_select_all (KeyDown letter_x_key true) first_selected
               = false) by reflexivity.
  assert (H2 : key letter_x_key <> "Escape"
               \/ selectedRowCount (rowSelection (state first_selected))
                  = 0%nat) by (left; discriminate).
  split; [exact H1|]. split; [exact H2|].
  exact (proj2 (keydown_only_touches_selection letter_x_key true first_selected)
           H1 H2).
Defined.

Lemma select_all_not_offered_when_all_selected_witness :
  List.NoDup (List.map row_id [row_2a; row_3a])
  /\ (forall row,
         In row [row_2a; row_3a] ->
         isSelected {[0%nat := true; 1%nat := true; 2%nat := true]} (row_id row)
         = true)
  /\ select_all_offered [row_2a; row_3a]
       {[0%nat := true; 1%nat := true; 2%nat := true]} = false.
Proof.
  assert (H1 : List.NoDup (List.map row_id [row_2a; row_3a])).
  { constructor; [intros [H|[]]; discriminate H|].
    constructor; [intros []|]. constructor. }
  assert (H2 : forall row,
             In row [row_2a; row_3a] ->
             isSelected {[0%nat := true; 1%nat := true; 2%nat := true]}
               (row_id row) = true).
  { intros row [<-|[<-|[]]]; reflexivity. }
  split; [exact H1|]. split; [exact H2|].
  exact (select_all_not_offered_when_all_selected [row_2a; row_3a]
           {[0%nat := true; 1%nat := true; 2%nat := true]} H1 H2).
Defined.

Lemma filterFn_ignores_case_witness :
  is_ascii_text "Ab" = true
  /\ filterFn row_2a "name" (JString (toUpperCase "Ab"))
     = filterFn row_2a "name" (JString "Ab")
  /\ filterFn row_2a "name" (JString (toLowerCase "Ab"))
     = filterFn row_2a "name" (JString "Ab").
Proof.
  assert (H : is_ascii_text "Ab" = true) by reflexivity.
  split; [exact H|].
  exact (filterFn_ignores_case row_2a "name" "Ab" H).
Defined.
